(** * MongoDB -> Elasticsearch integration: synchronisation and query translation

    A shallow embedding of the projector, the change propagator, the bulk
    reconcilers, the consistency tracker, the query translator and the result
    formatter, followed by the properties established about them.

    Layout: [JS] (values and control effects of the host language),
    [Strings] (the string built-ins the handlers call), [Engine] (the index
    client interface and two clients), then one module per source file. *)

From stdpp Require Import gmap strings list fin_maps pretty.
From Stdlib Require Import ZArith Ascii String.

Set Warnings "-register-all".
Open Scope string_scope.
Open Scope Z_scope.

(* ===================================================================== *)
(** ** Host-language values and effects                                   *)
(* ===================================================================== *)

Module JS.

(** Values handled by the program.  Numbers that the modelled paths compute
    with are integers (counts, sizes, offsets, status codes); [JNaN] is the
    failure value of [parseInt].  [JObjectId] is the record store's
    identifier object, whose [toString()] is its hexadecimal form.  An
    object is the ordered list of its own enumerable properties. *)
Inductive JsVal : Type :=
| JUndefined
| JNull
| JBool (b : bool)
| JNum (n : Z)
| JNaN
| JStr (s : string)
| JObjectId (hex : string)
| JArr (elems : list JsVal)
| JObj (props : list (string * JsVal)).

(** Own properties of a plain document object. *)
Abbreviation Props := (list (string * JsVal)).

(** ToBoolean. *)
Definition truthy (v : JsVal) : bool :=
  match v with
  | JUndefined | JNull | JNaN => false
  | JBool b => b
  | JNum n => negb (n =? 0)
  | JStr s => negb (String.eqb s "")
  | JObjectId _ | JArr _ | JObj _ => true
  end.

(** [a || b] *)
Definition jsOr (a b : JsVal) : JsVal := if truthy a then a else b.

(** [ps[k]] on the property list of an object; [undefined] when absent. *)
Fixpoint prop (ps : Props) (k : string) : JsVal :=
  match ps with
  | [] => JUndefined
  | (k', v) :: rest => if String.eqb k' k then v else prop rest k
  end.

(** Property definition in an object literal or by spread: an existing key
    keeps its position and takes the new value, a new key goes last. *)
Fixpoint setProp (ps : Props) (k : string) (v : JsVal) : Props :=
  match ps with
  | [] => [(k, v)]
  | (k', v') :: rest =>
      if String.eqb k' k then (k', v) :: rest else (k', v') :: setProp rest k v
  end.

(** The rest element of an object pattern, [{ k, ...rest } = o]. *)
Definition withoutProp (ps : Props) (k : string) : Props :=
  List.filter (fun p => negb (String.eqb (fst p) k)) ps.

(** [v.k] on a value that is neither [undefined] nor [null].  Primitives and
    arrays have none of the keys the program reads, except [length]. *)
Definition member (v : JsVal) (k : string) : JsVal :=
  match v with
  | JObj ps => prop ps k
  | JArr l => if String.eqb k "length" then JNum (Z.of_nat (List.length l)) else JUndefined
  | JStr s => if String.eqb k "length" then JNum (Z.of_nat (String.length s)) else JUndefined
  | _ => JUndefined
  end.

Definition nullish (v : JsVal) : bool :=
  match v with JUndefined | JNull => true | _ => false end.

(** [v?.k] *)
Definition optMember (v : JsVal) (k : string) : JsVal :=
  if nullish v then JUndefined else member v k.

(** ToString of a value: the fragment reached through [_id.toString()]. *)
Fixpoint toStr (v : JsVal) : string :=
  match v with
  | JUndefined => "undefined"
  | JNull => "null"
  | JBool true => "true"
  | JBool false => "false"
  | JNum n => pretty n
  | JNaN => "NaN"
  | JStr s => s
  | JObjectId hex => hex
  | JArr l =>
      String.concat ","
        (List.map (fun e => match e with JUndefined | JNull => "" | _ => toStr e end) l)
  | JObj _ => "[object Object]"
  end.

(** Thrown values: an [Error] with its message and, for the index client's
    response errors, [error.meta.statusCode]. *)
Record JsError : Type := mkError {
  message : string;
  statusCode : option Z
}.

Definition TypeError (msg : string) : JsError := mkError msg None.

(** The error of reading property [k] of [undefined] or [null]. *)
Definition cannotRead (v : JsVal) (k : string) : JsError :=
  TypeError ("Cannot read properties of " +:+ toStr v +:+ " (reading '" +:+ k +:+ "')").

(** [error.meta?.statusCode === n] *)
Definition hasStatus (e : JsError) (n : Z) : bool :=
  match statusCode e with Some c => c =? n | None => false end.

(** Completion of an evaluation: a value or a throw. *)
Inductive Exc (A : Type) : Type :=
| Returned (a : A)
| Thrown (e : JsError).
Arguments Returned {A} a.
Arguments Thrown {A} e.

(** Computations over a store [W] that may throw: the store survives a
    throw, as the index does when a client call is rejected. *)
Definition M (W A : Type) : Type := W -> Exc A * W.

Definition ret {W A} (a : A) : M W A := fun w => (Returned a, w).

Definition throw {W A} (e : JsError) : M W A := fun w => (Thrown e, w).

Definition bind {W A B} (m : M W A) (k : A -> M W B) : M W B :=
  fun w => match m w with
           | (Returned a, w') => k a w'
           | (Thrown e, w') => (Thrown e, w')
           end.

(** [try { body } catch (error) { handler }] *)
Definition tryCatch {W A} (body : M W A) (handler : JsError -> M W A) : M W A :=
  fun w => match body w with
           | (Returned a, w') => (Returned a, w')
           | (Thrown e, w') => handler e w'
           end.

Definition liftE {W A} (x : Exc A) : M W A := fun w => (x, w).

#[export] Instance M_ret W : MRet (M W) := fun A => @ret W A.
#[export] Instance M_bind W : MBind (M W) := fun A B k m => @bind W A B m k.

(** [v.k], throwing on [undefined] and [null]. *)
Definition get {W} (v : JsVal) (k : string) : M W JsVal :=
  if nullish v then throw (cannotRead v k) else ret (member v k).

(** [arr.map(f)] and [arr.filter(p)] on the elements of an array. *)
Fixpoint mapM {W A B} (f : A -> M W B) (l : list A) : M W (list B) :=
  match l with
  | [] => ret []
  | x :: rest => y ← f x; ys ← mapM f rest; ret (y :: ys)
  end.

Fixpoint filterM {W A} (p : A -> M W JsVal) (l : list A) : M W (list A) :=
  match l with
  | [] => ret []
  | x :: rest =>
      keep ← p x; ys ← filterM p rest;
      ret (if truthy keep then x :: ys else ys)
  end.

(** [v.toString()] *)
Definition toString {W} (v : JsVal) : M W string :=
  if nullish v then throw (cannotRead v "toString") else ret (toStr v).

(** A computation that leaves the store alone, whatever it returns. *)
Definition storeFree {W A} (m : M W A) : Prop := forall w, snd (m w) = w.

End JS.
Export JS.

(* ===================================================================== *)
(** ** String built-ins                                                   *)
(* ===================================================================== *)

Module Strings.

(** Text is ASCII: request parameters and field names of this application.
    Case mapping and white space follow the built-ins on that range, and
    only there: the built-ins also map letters and trim white space
    outside ASCII, which these definitions leave as they are. *)
Definition code (c : ascii) : Z := Z.of_N (N_of_ascii c).

Definition ofCode (n : Z) : ascii := ascii_of_N (Z.to_N n).

Definition between (lo hi : Z) (c : ascii) : bool := (lo <=? code c) && (code c <=? hi).

Definition upperChar (c : ascii) : ascii :=
  if between 97 122 c then ofCode (code c - 32) else c.

Definition lowerChar (c : ascii) : ascii :=
  if between 65 90 c then ofCode (code c + 32) else c.

Definition mapChars (f : ascii -> ascii) (s : string) : string :=
  string_of_list_ascii (List.map f (list_ascii_of_string s)).

(** [s.toUpperCase()], [s.toLowerCase()], on ASCII text. *)
Definition toUpperCase (s : string) : string := mapChars upperChar s.
Definition toLowerCase (s : string) : string := mapChars lowerChar s.

(** White space of ASCII text: TAB, LF, VT, FF, CR, SP. *)
Definition isWhite (c : ascii) : bool := between 9 13 c || (code c =? 32).

Fixpoint dropWhite (cs : list ascii) : list ascii :=
  match cs with
  | c :: rest => if isWhite c then dropWhite rest else cs
  | [] => []
  end.

Definition trimChars (cs : list ascii) : list ascii :=
  List.rev (dropWhite (List.rev (dropWhite cs))).

(** [s.trim()], on ASCII text. *)
Definition trim (s : string) : string :=
  string_of_list_ascii (trimChars (list_ascii_of_string s)).

(** [s.split(',')] *)
Fixpoint splitChars (sep : ascii) (cur : list ascii) (cs : list ascii) : list string :=
  match cs with
  | [] => [string_of_list_ascii (List.rev cur)]
  | c :: rest =>
      if Ascii.eqb c sep then string_of_list_ascii (List.rev cur) :: splitChars sep [] rest
      else splitChars sep (c :: cur) rest
  end.

Definition split (sep : ascii) (s : string) : list string :=
  splitChars sep [] (list_ascii_of_string s).

(** Value of a digit in the given radix. *)
Definition digitValue (radix : Z) (c : ascii) : option Z :=
  let d :=
    if between 48 57 c then Some (code c - 48)
    else if between 97 122 c then Some (code c - 87)
    else if between 65 90 c then Some (code c - 55)
    else None in
  match d with
  | Some n => if n <? radix then Some n else None
  | None => None
  end.

(** Longest prefix of digits, as a number; [None] when there is no digit. *)
Fixpoint leadingDigits (radix : Z) (acc : option Z) (cs : list ascii) : option Z :=
  match cs with
  | [] => acc
  | c :: rest =>
      match digitValue radix c with
      | Some d => leadingDigits radix (Some (default 0 acc * radix + d)) rest
      | None => acc
      end
  end.

(** [parseInt(s)] with no radix argument: leading white space, a sign, an
    optional [0x] prefix, then the longest run of digits; [NaN] without one.
    The result is the integer the digits denote.  The built-in returns a
    double, which is that integer as long as it is below 2^53 in absolute
    value (every literal of at most thirteen characters); beyond it the
    built-in rounds, and overflows to [Infinity]. *)
Definition parseInt (s : string) : JsVal :=
  let cs := dropWhite (list_ascii_of_string s) in
  let '(sign, cs) :=
    match cs with
    | "-"%char :: rest => (-1, rest)
    | "+"%char :: rest => (1, rest)
    | _ => (1, cs)
    end in
  let '(radix, cs) :=
    match cs with
    | "0"%char :: "x"%char :: rest => (16, rest)
    | "0"%char :: "X"%char :: rest => (16, rest)
    | _ => (10, cs)
    end in
  match leadingDigits radix None cs with
  | Some n => JNum (sign * n)
  | None => JNaN
  end.

(** Splits off a run of digits of the radix: its length and what follows. *)
Fixpoint spanDigits (radix : Z) (cs : list ascii) : nat * list ascii :=
  match cs with
  | c :: rest =>
      match digitValue radix c with
      | Some _ => let '(n, tl) := spanDigits radix rest in (S n, tl)
      | None => (O, cs)
      end
  | [] => (O, [])
  end.

(** An optional exponent part, then the end of the literal. *)
Definition exponentThenEnd (cs : list ascii) : bool :=
  match cs with
  | [] => true
  | e :: rest =>
      if Ascii.eqb e "e" || Ascii.eqb e "E" then
        let rest :=
          match rest with
          | "+"%char :: r => r
          | "-"%char :: r => r
          | _ => rest
          end in
        match spanDigits 10 rest with
        | (S _, []) => true
        | _ => false
        end
      else false
  end.

(** An unsigned decimal literal: [Infinity], digits with an optional
    fraction and exponent, or a dot followed by digits and an optional
    exponent. *)
Definition unsignedDecimal (cs : list ascii) : bool :=
  if String.eqb (string_of_list_ascii cs) "Infinity" then true
  else
    match spanDigits 10 cs with
    | (S _, "."%char :: rest) => exponentThenEnd (snd (spanDigits 10 rest))
    | (S _, rest) => exponentThenEnd rest
    | (O, "."%char :: rest) =>
        match spanDigits 10 rest with
        | (S _, rest') => exponentThenEnd rest'
        | (O, _) => false
        end
    | (O, _) => false
    end.

Definition allDigits (radix : Z) (cs : list ascii) : bool :=
  match spanDigits radix cs with
  | (S _, []) => true
  | _ => false
  end.

(** Whether [Number(s)] is a number: the string numeric literal grammar. *)
Definition isNumericString (s : string) : bool :=
  match trimChars (list_ascii_of_string s) with
  | [] => true
  | "0"%char :: p :: rest =>
      if Ascii.eqb p "x" || Ascii.eqb p "X" then allDigits 16 rest
      else if Ascii.eqb p "o" || Ascii.eqb p "O" then allDigits 8 rest
      else if Ascii.eqb p "b" || Ascii.eqb p "B" then allDigits 2 rest
      else unsignedDecimal ("0"%char :: p :: rest)
  | "+"%char :: rest => unsignedDecimal rest
  | "-"%char :: rest => unsignedDecimal rest
  | cs => unsignedDecimal cs
  end.

(** [isNaN(s)] on a string argument. *)
Definition isNaN (s : string) : bool := negb (isNumericString s).

(** [n < k], [n > k] on a result of [parseInt]: false on [NaN]. *)
Definition ltNum (v : JsVal) (k : Z) : bool :=
  match v with JNum n => n <? k | _ => false end.

Definition gtNum (v : JsVal) (k : Z) : bool :=
  match v with JNum n => k <? n | _ => false end.

(** The double-quote character, for messages that quote a parameter. *)
Definition dquote : string := String (ofCode 34) EmptyString.

(** [list.includes(s)] *)
Definition includes (l : list string) (s : string) : bool :=
  existsb (String.eqb s) l.

End Strings.
Export Strings.

(* ===================================================================== *)
(** ** The index client                                                   *)
(* ===================================================================== *)

Module Engine.

(** Boost factors are the decimal literals of the source, in tenths. *)
Abbreviation Boost := Z (only parsing).

(** [fuzzy ? fuzziness : 0]: the request's fuzziness text or the number 0. *)
Inductive Fuzziness : Type :=
| FuzzText (s : string)
| FuzzNum (n : Z).

(** The query clauses the translator emits. *)
Inductive Query : Type :=
| MatchAll
| Term (field value : string) (boost : Boost)
| Wildcard (field value : string) (boost : option Boost)
| Prefix (field value : string) (boost : option Boost)
| Match (field query : string) (fuzziness : option Fuzziness) (boost : option Boost)
| Terms (field : string) (values : list string)
| Range (field : string) (gte lte : option string)
| Bool (must should filter : list Query) (minimum_should_match : option Z).

(** One entry of a sort array, [{ [field]: { order } }]. *)
Record SortKey : Type := mkSort { sortField : string; sortDir : string }.

(** The constant block sent next to the query: highlighting for the main
    search, facet aggregations for the advanced search. *)
Inductive Extras : Type := Highlight | Aggregations.

(** Argument of [esClient.search]. *)
Record SearchRequest : Type := mkSearch {
  sr_index : string;
  sr_query : Query;
  sr_size : JsVal;
  sr_from : JsVal;
  sr_sort : list SortKey;
  sr_extras : Extras
}.

(** Result of [esClient.count]: the count may sit under [body] or at the
    top level, depending on the client library. *)
Record CountResponse : Type := mkCount {
  body_count : option Z;
  top_count : option Z
}.

(** The methods of [esClient] that the program calls, over a store [S]. *)
Record EsClient (S : Type) : Type := mkClient {
  index : string -> JsVal -> JsVal -> M S JsVal;
  update : string -> JsVal -> JsVal -> M S JsVal;
  delete : string -> JsVal -> M S JsVal;
  bulk : bool -> list JsVal -> M S JsVal;
  search : SearchRequest -> M S JsVal;
  count : string -> M S CountResponse
}.
Arguments index {S} _ _ _ _ _.
Arguments update {S} _ _ _ _ _.
Arguments delete {S} _ _ _ _.
Arguments bulk {S} _ _ _ _.
Arguments search {S} _ _ _.
Arguments count {S} _ _ _.

(** *** A reference engine

    The document API of the index engine as its documentation states it:
    [index] creates or overwrites, [update] merges a partial document into
    an existing one and fails with 404 on a missing one unless the request
    carries [doc_as_upsert] or [upsert], [delete] fails with 404 on a
    missing one, [bulk] decides every item on its own and reports failures
    per item.  What the engine cannot be asked here is how it scores a
    search: [answer] stands for that. *)

(** The engine's state: the stored document sources by identifier. *)
Abbreviation Index := (gmap string JsVal).

(** Identifier as it travels to the engine: record identifiers are
    [ObjectId]s (serialised to their hexadecimal text) or strings. *)
Definition wireId (v : JsVal) : option string :=
  match v with
  | JStr s => Some s
  | JObjectId hex => Some hex
  | JNum n => Some (pretty n)
  | _ => None
  end.

(** Recursive merge of a partial document into a stored one. *)
Fixpoint merge (old new : JsVal) {struct new} : JsVal :=
  match new, old with
  | JObj nps, JObj ops =>
      JObj (fold_left
              (fun acc p => setProp acc (fst p) (merge (prop acc (fst p)) (snd p)))
              nps ops)
  | _, _ => new
  end.

Definition notFound (what : string) : JsError := mkError what (Some 404).
Definition badRequest (what : string) : JsError := mkError what (Some 400).

Definition writeResult (ix k result : string) : JsVal :=
  JObj [("_index", JStr ix); ("_id", JStr k); ("result", JStr result)].

Section Reference.

(** The index mapping's verdict on a document source. *)
Variable accepts : JsVal -> bool.
(** The engine's reply to a search, given its documents. *)
Variable answer : SearchRequest -> gmap string JsVal -> Exc JsVal.

Definition ref_index (ix : string) (id body : JsVal) : M Index JsVal :=
  fun w =>
    match wireId id with
    | None => (Thrown (badRequest "illegal_argument_exception"), w)
    | Some k =>
        if accepts body
        then (Returned (writeResult ix k
                          (match w !! k with Some _ => "updated" | None => "created" end)),
              <[k := body]> w)
        else (Thrown (badRequest "mapper_parsing_exception"), w)
    end.

Definition storeIfAccepted (ix k : string) (source : JsVal) (result : string)
  : M Index JsVal :=
  fun w =>
    if accepts source
    then (Returned (writeResult ix k result), <[k := source]> w)
    else (Thrown (badRequest "mapper_parsing_exception"), w).

Definition ref_update (ix : string) (id body : JsVal) : M Index JsVal :=
  fun w =>
    match wireId id with
    | None => (Thrown (badRequest "illegal_argument_exception"), w)
    | Some k =>
        match member body "doc", w !! k with
        | JObj partial, Some old => storeIfAccepted ix k (merge old (JObj partial)) "updated" w
        | JObj partial, None =>
            if truthy (member body "doc_as_upsert")
            then storeIfAccepted ix k (JObj partial) "created" w
            else if nullish (member body "upsert")
            then (Thrown (notFound "document_missing_exception"), w)
            else storeIfAccepted ix k (member body "upsert") "created" w
        | _, _ => (Thrown (badRequest "action_request_validation_exception"), w)
        end
    end.

Definition ref_delete (ix : string) (id : JsVal) : M Index JsVal :=
  fun w =>
    match wireId id with
    | None => (Thrown (badRequest "illegal_argument_exception"), w)
    | Some k =>
        match w !! k with
        | Some _ => (Returned (writeResult ix k "deleted"), base.delete k w)
        | None => (Thrown (notFound "not_found"), w)
        end
    end.

Definition okItem (meta : JsVal) (k : string) : JsVal :=
  JObj [("index", JObj [("_index", member meta "_index"); ("_id", JStr k);
                        ("status", JNum 201)])].

Definition failedItem (meta : JsVal) (id : JsVal) (type : string) : JsVal :=
  JObj [("index", JObj [("_index", member meta "_index"); ("_id", id);
                        ("status", JNum 400);
                        ("error", JObj [("type", JStr type)])])].

(** One [index] action line with its source line. *)
Definition bulkStep (action source : JsVal) (d : gmap string JsVal)
  : JsVal * gmap string JsVal :=
  let meta := optMember action "index" in
  match wireId (optMember meta "_id") with
  | Some k =>
      if accepts source then (okItem meta k, <[k := source]> d)
      else (failedItem meta (JStr k) "mapper_parsing_exception", d)
  | None => (failedItem meta (optMember meta "_id") "illegal_argument_exception", d)
  end.

(** The body of a bulk request is read two lines at a time. *)
Fixpoint bulkItems (lines : list JsVal) (d : gmap string JsVal)
  : list JsVal * gmap string JsVal :=
  match lines with
  | action :: source :: rest =>
      let '(item, d1) := bulkStep action source d in
      let '(items, d2) := bulkItems rest d1 in
      (item :: items, d2)
  | _ => ([], d)
  end.

Definition itemFailed (item : JsVal) : bool :=
  truthy (optMember (member item "index") "error").

(** The reply has [errors] and [items] at its top level, where the
    handlers read them.  With [refresh: true] the writes are visible when
    the call returns; the model has no other kind of write. *)
Definition ref_bulk (refresh : bool) (lines : list JsVal) : M Index JsVal :=
  fun w =>
    let '(items, d) := bulkItems lines w in
    (Returned (JObj [("errors", JBool (existsb itemFailed items)); ("items", JArr items)]), d).

Definition ref_search (r : SearchRequest) : M Index JsVal :=
  fun w => (answer r w, w).

Definition ref_count (ix : string) : M Index CountResponse :=
  fun w => (Returned (mkCount None (Some (Z.of_nat (size w)))), w).

Definition elastic : EsClient Index :=
  mkClient Index ref_index ref_update ref_delete ref_bulk ref_search ref_count.

End Reference.

(** *** An instrumented client

    Wraps a client and keeps the list of the calls made through it, each
    with the arguments it was given. *)
Inductive Call : Type :=
| CallIndex (ix : string) (id body : JsVal)
| CallUpdate (ix : string) (id body : JsVal)
| CallDelete (ix : string) (id : JsVal)
| CallBulk (refresh : bool) (lines : list JsVal)
| CallSearch (r : SearchRequest)
| CallCount (ix : string).

Section Spy.
Context {S : Type}.
Variable inner : EsClient S.

Definition logged {A} (c : Call) (m : M S A) : M (S * list Call) A :=
  fun w => let '(r, s') := m (fst w) in (r, (s', (snd w ++ [c])%list)).

Definition spy : EsClient (S * list Call) :=
  mkClient (S * list Call)
    (fun ix id body => logged (CallIndex ix id body) (index inner ix id body))
    (fun ix id body => logged (CallUpdate ix id body) (update inner ix id body))
    (fun ix id => logged (CallDelete ix id) (delete inner ix id))
    (fun refresh lines => logged (CallBulk refresh lines) (bulk inner refresh lines))
    (fun r => logged (CallSearch r) (search inner r))
    (fun ix => logged (CallCount ix) (count inner ix)).

End Spy.

End Engine.
Export Engine.

(* ===================================================================== *)
(** ** Process environment and the record store                          *)
(* ===================================================================== *)

Module Env.

(** The environment variables the handlers read and the clock. *)
Record Process : Type := mkProcess {
  ELASTICSEARCH_INDEX : option string;
  NODE_ENV : option string;
  MONGODB_DATABASE : option string;
  MONGODB_COLLECTION : option string;
  now : string
}.

(** [process.env.X || fallback] *)
Definition envOr (x : option string) (fallback : string) : string :=
  match x with
  | Some s => if String.eqb s "" then fallback else s
  | None => fallback
  end.

Definition indexNameOf (env : Process) : string :=
  envOr (ELASTICSEARCH_INDEX env) "subnet_search".

(** [process.env.NODE_ENV === 'development'] *)
Definition development (env : Process) : bool :=
  match NODE_ENV env with Some s => String.eqb s "development" | None => false end.

(** The collection as the handlers read it: the outcome of
    [find({}).toArray()] and of [countDocuments()]. *)
Record Collection : Type := mkCollection {
  findAll : Exc (list Props);
  countDocuments : Exc Z
}.

(** An HTTP reply: [res.status(n).json(body)], status 200 by default. *)
Record Response : Type := mkResponse { status : Z; json : JsVal }.

Definition ok (body : JsVal) : Response := mkResponse 200 body.

End Env.
Export Env.

(* ===================================================================== *)
(** ** scripts/batch-operations.js                                        *)
(* ===================================================================== *)

Module BatchOperations.

(** [if (v) suggest.push(v)] *)
Definition pushIf (v : JsVal) (suggest : list JsVal) : list JsVal :=
  if truthy v then suggest ++ [v] else suggest.

Definition suggestInput (doc : Props) : list JsVal :=
  let suggest := [] in
  let suggest := pushIf (prop doc "CLUSTERID") suggest in
  let suggest := pushIf (prop doc "SITE") suggest in
  let suggest := pushIf (prop doc "DESCRIPTION") suggest in
  suggest.

Definition transformForElasticsearch (doc : Props) : Props :=
  setProp doc "suggest"
    (JObj [("input", JArr (suggestInput doc));
           ("contexts", JObj [("category", JArr [JStr "subnet"; JStr "network"])])]).

(** The [operations] array of the script: an action line and the
    transformed document for every record. *)
Fixpoint operations {W} (indexName : string) (allDocs : list Props) : M W (list JsVal) :=
  match allDocs with
  | [] => ret []
  | doc :: rest =>
      id ← toString (prop doc "_id");
      lines ← operations indexName rest;
      ret (JObj [("index", JObj [("_index", JStr indexName); ("_id", JStr id)])]
             :: JObj (transformForElasticsearch doc) :: lines)
  end.

End BatchOperations.

(* ===================================================================== *)
(** ** src/services/syncService.js                                        *)
(* ===================================================================== *)

Module SyncService.

(** A change-stream event as the handler reads it. *)
Record ChangeEvent : Type := mkChange {
  operationType : string;
  documentKey : JsVal;
  fullDocument : JsVal
}.

Section WithClient.
Context {S : Type}.

(** Body of the bulk request: for every document the action line, with
    the document's own [_id], then the document as it is. *)
Definition bulkBody (indexName : string) (documents : list Props) : list JsVal :=
  flat_map
    (fun doc => [JObj [("index", JObj [("_index", JStr indexName); ("_id", prop doc "_id")])];
                 JObj doc])
    documents.

Definition bulkSyncToElasticsearch (env : Process) (collection : Collection)
    (esClient : EsClient S) : M S Z :=
  tryCatch
    (documents ← liftE (findAll collection);
     (if 0 <? Z.of_nat (List.length documents) then
        let indexName := indexNameOf env in
        let body := bulkBody indexName documents in
        response ← bulk esClient true body;
        _ ← get response "errors";
        ret tt
      else ret tt);;
     ret (Z.of_nat (List.length documents)))
    (fun error => throw error).

Definition handleChangeEvent (change : ChangeEvent) (esClient : EsClient S)
    (indexName : string) : M S unit :=
  tryCatch
    (if String.eqb (operationType change) "insert" then
       id ← get (documentKey change) "_id";
       _ ← index esClient indexName id (fullDocument change);
       ret tt
     else if String.eqb (operationType change) "update" then
       id ← get (documentKey change) "_id";
       _ ← update esClient indexName id (JObj [("doc", fullDocument change)]);
       ret tt
     else if String.eqb (operationType change) "delete" then
       id ← get (documentKey change) "_id";
       _ ← delete esClient indexName id;
       ret tt
     else ret tt)
    (fun error => ret tt).

(** Modelled from the spec: the consumer of the change stream, which the
    source leaves as a stub in [setupChangeStreams].  It applies the
    delivered events one at a time, in delivery order, awaiting the handler
    on each; a throw escaping the handler would end the consumption. *)
Fixpoint applyChanges (changes : list ChangeEvent) (esClient : EsClient S)
    (indexName : string) : M S unit :=
  match changes with
  | [] => ret tt
  | change :: later =>
      handleChangeEvent change esClient indexName;;
      applyChanges later esClient indexName
  end.

End WithClient.

End SyncService.

(* ===================================================================== *)
(** ** src/routes/syncRoutes.js                                           *)
(* ===================================================================== *)

Module SyncRoutes.

(** [o || fallback] on an optional count. *)
Definition countOr (o : option Z) (fallback : Z) : Z :=
  match o with
  | Some n => if n =? 0 then fallback else n
  | None => fallback
  end.

(** [esResponse.body?.count || esResponse.count || 0] *)
Definition countOf (esResponse : CountResponse) : Z :=
  countOr (body_count esResponse) (countOr (top_count esResponse) 0).

Section WithClient.
Context {S : Type}.

(** The two lines the route emits for one document: the identifier is
    taken out of the document and only the remaining fields are sent. *)
Definition bulkLines (indexName : string) (doc : Props) : M S (list JsVal) :=
  let _id := prop doc "_id" in
  let docWithoutId := withoutProp doc "_id" in
  id ← toString _id;
  ret [JObj [("index", JObj [("_index", JStr indexName); ("_id", JStr id)])];
       JObj docWithoutId].

(** [documents.flatMap(f)] *)
Fixpoint flatMapM {A B} (f : A -> M S (list B)) (l : list A) : M S (list B) :=
  match l with
  | [] => ret []
  | x :: rest => ys ← f x; zs ← flatMapM f rest; ret (ys ++ zs)%list
  end.

(** [item.index && item.index.error] *)
Definition failed (item : JsVal) : M S JsVal :=
  ix ← get item "index";
  if truthy ix then ret (member ix "error") else ret ix.

(** [items.filter(p)] *)
Definition filterItems (items : JsVal) : M S (list JsVal) :=
  match items with
  | JArr l => filterM failed l
  | JUndefined | JNull => throw (cannotRead items "filter")
  | _ => throw (TypeError "response.items.filter is not a function")
  end.

(** POST /api/sync/bulk *)
Definition bulkRoute (env : Process) (collection : Collection) (esClient : EsClient S)
  : M S Response :=
  tryCatch
    (documents ← liftE (findAll collection);
     if Z.of_nat (List.length documents) =? 0 then
       ret (ok (JObj [("success", JBool true);
                      ("message", JStr "No documents found in MongoDB to sync");
                      ("documentsProcessed", JNum 0)]))
     else
       let indexName := indexNameOf env in
       body ← flatMapM (bulkLines indexName) documents;
       response ← bulk esClient true body;
       errors ← get response "errors";
       if truthy errors then
         failing ← filterItems (member response "items");
         ret (mkResponse 500
                (JObj [("success", JBool false);
                       ("error", JStr "Bulk sync completed with errors");
                       ("documentsProcessed", JNum (Z.of_nat (List.length documents)));
                       ("errors", JArr failing)]))
       else
         ret (ok (JObj [("success", JBool true);
                        ("message", JStr "Bulk sync completed successfully");
                        ("documentsProcessed", JNum (Z.of_nat (List.length documents)));
                        ("timestamp", JStr (now env))])))
    (fun error =>
       ret (mkResponse 500
              (JObj [("success", JBool false);
                     ("error", JStr "Bulk sync failed");
                     ("message", JStr (message error))]))).

(** The inner [try] of the status route: the index's count, zero when
    the engine answers 404. *)
Definition indexCount (indexName : string) (esClient : EsClient S) : M S Z :=
  tryCatch
    (esResponse ← count esClient indexName;
     ret (countOf esResponse))
    (fun esError => if hasStatus esError 404 then ret 0 else throw esError).

(** GET /api/sync/status *)
Definition statusRoute (env : Process) (collection : Collection) (esClient : EsClient S)
  : M S Response :=
  tryCatch
    (mongoCount ← liftE (countDocuments collection);
     let indexName := indexNameOf env in
     esCount ← indexCount indexName esClient;
     ret (ok (JObj [("mongodb",
                     JObj [("count", JNum mongoCount);
                           ("database", JStr (envOr (MONGODB_DATABASE env) "lucene"));
                           ("collection", JStr (envOr (MONGODB_COLLECTION env) "subnet_details"))]);
                    ("elasticsearch",
                     JObj [("count", JNum esCount); ("index", JStr indexName)]);
                    ("synced", JBool (mongoCount =? esCount));
                    ("difference", JNum (mongoCount - esCount));
                    ("timestamp", JStr (now env))])))
    (fun error =>
       ret (mkResponse 500
              (JObj [("error", JStr "Failed to get sync status");
                     ("message", JStr (message error))]))).

End WithClient.

End SyncRoutes.

(* ===================================================================== *)
(** ** Request parameters and src/middleware/validation.js                *)
(* ===================================================================== *)

Module Req.

(** [req.query] of a request that gives every key at most once: each
    parameter is absent or a string.  (A key given several times arrives as
    an array of strings.) *)
Record Params : Type := mkParams {
  q : option string;
  field : option string;
  fuzzy : option string;
  fuzziness : option string;
  size : option string;
  from : option string;
  sortBy : option string;
  sortOrder : option string;
  sites : option string;
  clusters : option string;
  usernames : option string;
  dateFrom : option string;
  dateTo : option string
}.

(** Truthiness of a parameter: present and not the empty string. *)
Definition given (p : option string) : bool :=
  match p with Some s => negb (String.eqb s "") | None => false end.

(** [parseInt(p)] where [p] has a numeric default. *)
Definition parseIntOr (p : option string) (dflt : Z) : JsVal :=
  match p with Some s => parseInt s | None => JNum dflt end.

End Req.

Module Validation.

Definition reject (msg : string) : option Response :=
  Some (mkResponse 400 (JObj [("error", JStr msg)])).

(** [validateSearch]: [Some] reply when the middleware answers itself,
    [None] when it calls [next()]. *)
Definition validateSearch (query : Req.Params) : option Response :=
  if negb (Req.given (Req.q query))
     || (Z.of_nat (String.length (trim (default "" (Req.q query)))) =? 0)
  then reject ("Query parameter " +:+ dquote +:+ "q" +:+ dquote +:+ " is required and cannot be empty")
  else if Req.given (Req.size query)
          && (isNaN (default "" (Req.size query))
              || ltNum (parseInt (default "" (Req.size query))) 1
              || gtNum (parseInt (default "" (Req.size query))) 100)
  then reject "Size must be a number between 1 and 100"
  else if Req.given (Req.from query)
          && (isNaN (default "" (Req.from query))
              || ltNum (parseInt (default "" (Req.from query))) 0)
  then reject "From must be a non-negative number"
  else if Req.given (Req.fuzzy query)
          && negb (includes ["true"; "false"] (toLowerCase (default "" (Req.fuzzy query))))
  then reject "Fuzzy must be true or false"
  else if Req.given (Req.fuzziness query)
          && negb (includes ["AUTO"; "0"; "1"; "2"] (default "" (Req.fuzziness query)))
  then reject "Fuzziness must be AUTO, 0, 1, or 2"
  else None.


End Validation.

(* ===================================================================== *)
(** ** src/controllers/searchController.js                                *)
(* ===================================================================== *)

Module SearchController.

(** [`*${q.toLowerCase()}*`] *)
Definition contains (q : string) : string := "*" +:+ toLowerCase q +:+ "*".

(** [fuzzy ? fuzziness : 0] *)
Definition fuzzinessOf (fuzzy : JsVal) (fuzziness : string) : Fuzziness :=
  if truthy fuzzy then FuzzText fuzziness else FuzzNum 0.

Definition buildMultiFieldQuery (q : string) (fuzzy : JsVal) (fuzziness : string) : Query :=
  Bool []
    [ Bool []
        [Term "CLUSTERID" q 30; Term "SITE" q 30; Term "USERNAME" q 20]
        [] None;
      Bool []
        [Wildcard "CLUSTERID" (contains q) (Some 25);
         Wildcard "SITE" (contains q) (Some 25);
         Wildcard "USERNAME" (contains q) (Some 15);
         Wildcard "VALUE" (contains q) (Some 20)]
        [] None;
      Match "VALUE" q (Some (fuzzinessOf fuzzy fuzziness)) (Some 20);
      Bool []
        [Match "CLUSTERID.autocomplete" q None (Some 20);
         Match "SITE.autocomplete" q None (Some 20)]
        [] None;
      Bool []
        [Prefix "CLUSTERID" (toLowerCase q) (Some 15);
         Prefix "SITE" (toLowerCase q) (Some 15);
         Prefix "USERNAME" (toLowerCase q) (Some 10)]
        [] None ]
    [] (Some 1).

Definition fieldMapping : list (string * string) :=
  [("CLUSTERID", "keyword"); ("SITE", "keyword"); ("VALUE", "text");
   ("USERNAME", "keyword"); ("CIDR", "keyword"); ("CIDRIPV4", "keyword")].

(** [fieldMapping[key]]: an upper-cased key never names an inherited
    property, so the own entries decide. *)
Fixpoint lookupField (table : list (string * string)) (key : string) : option string :=
  match table with
  | [] => None
  | (k, v) :: rest => if String.eqb k key then Some v else lookupField rest key
  end.

Definition validSortFields : list string :=
  ["_score"; "TIMESTAMP"; "CLUSTERID"; "SITE"; "USERNAME"].

Definition buildSortConfig (sortBy sortOrder : string) : list SortKey :=
  let field := if includes validSortFields sortBy then sortBy else "_score" in
  let order := if includes ["asc"; "desc"] sortOrder then sortOrder else "desc" in
  if String.eqb field "_score" then [mkSort "_score" order]
  else [mkSort field order; mkSort "_score" "desc"].

(** [hits.total?.value || hits.total || 0] *)
Definition totalValueOf (hits : JsVal) : JsVal :=
  jsOr (jsOr (optMember (member hits "total") "value") (member hits "total")) (JNum 0).

(** [hits.total?.relation || "eq"] *)
Definition relationOf (hits : JsVal) : JsVal :=
  jsOr (optMember (member hits "total") "relation") (JStr "eq").

Section WithClient.
Context {S : Type}.

Definition buildFieldSpecificQuery (q field : string) (fuzzy : JsVal) (fuzziness : string)
  : M S Query :=
  match lookupField fieldMapping (toUpperCase field) with
  | None => throw (mkError ("Invalid field: " +:+ field) None)
  | Some fieldType =>
      if String.eqb fieldType "keyword" then
        ret (Bool []
               [Term field q 30;
                Wildcard field (contains q) (Some 20);
                Prefix field (toLowerCase q) (Some 15)]
               [] (Some 1))
      else
        ret (Match field q (Some (fuzzinessOf fuzzy fuzziness)) None)
  end.

(** [response.body?.hits || response.hits || { total: { value: 0 }, hits: [] }] *)
Definition rawHits (response : JsVal) : M S JsVal :=
  body ← get response "body";
  if truthy (optMember body "hits") then ret (optMember body "hits")
  else
    top ← get response "hits";
    ret (jsOr top (JObj [("total", JObj [("value", JNum 0)]); ("hits", JArr [])])).

(** [hits.hits?.map(f) || []] *)
Definition mapHits (f : JsVal -> M S JsVal) (hits : JsVal) : M S JsVal :=
  if nullish (member hits "hits") then ret (JArr [])
  else
    match member hits "hits" with
    | JArr l => l' ← mapM f l; ret (JArr l')
    | _ => throw (TypeError "hits.hits?.map is not a function")
    end.

Definition searchHit (hit : JsVal) : M S JsVal :=
  id ← get hit "_id";
  ret (JObj [("id", id);
             ("score", member hit "_score");
             ("source", member hit "_source");
             ("highlight", jsOr (member hit "highlight") (JObj []))]).

Definition advancedHit (hit : JsVal) : M S JsVal :=
  id ← get hit "_id";
  ret (JObj [("id", id);
             ("score", member hit "_score");
             ("source", member hit "_source")]).

(** The reply of [search] once the engine has answered. *)
Definition formatSearch (response : JsVal) : M S Response :=
  hits ← rawHits response;
  let totalValue := totalValueOf hits in
  list ← mapHits searchHit hits;
  ret (ok (JObj [("total", JObj [("value", totalValue); ("relation", relationOf hits)]);
                 ("hits", list)])).

(** The reply of [advancedSearch] once the engine has answered. *)
Definition formatAdvanced (response : JsVal) : M S Response :=
  hits ← rawHits response;
  let totalValue := totalValueOf hits in
  list ← mapHits advancedHit hits;
  ret (ok (JObj [("total", JObj [("value", totalValue); ("relation", relationOf hits)]);
                 ("hits", list);
                 ("aggregations",
                  jsOr (jsOr (optMember (member response "body") "aggregations")
                             (member response "aggregations"))
                       (JObj []))])).

Definition search (env : Process) (query : Req.Params) (esClient : EsClient S)
  : M S Response :=
  tryCatch
    (let fuzzy := match Req.fuzzy query with Some s => JStr s | None => JBool false end in
     let fuzziness := default "AUTO" (Req.fuzziness query) in
     let sortBy := default "_score" (Req.sortBy query) in
     let sortOrder := default "desc" (Req.sortOrder query) in
     if negb (Req.given (Req.q query)) then
       ret (mkResponse 400
              (JObj [("error", JStr ("Query parameter " +:+ dquote +:+ "q" +:+ dquote
                                       +:+ " is required"))]))
     else
       let q := default "" (Req.q query) in
       let indexName := indexNameOf env in
       query' ← (if String.eqb q "*" then ret MatchAll
                 else if Req.given (Req.field query) then
                   buildFieldSpecificQuery q (default "" (Req.field query)) fuzzy fuzziness
                 else ret (buildMultiFieldQuery q fuzzy fuzziness));
       let sort := buildSortConfig sortBy sortOrder in
       response ← Engine.search esClient
                    (mkSearch indexName query'
                       (Req.parseIntOr (Req.size query) 10)
                       (Req.parseIntOr (Req.from query) 0)
                       sort Highlight);
       formatSearch response)
    (fun error =>
       if hasStatus error 404 then
         ret (mkResponse 404
                (JObj [("error", JStr "Search index not found");
                       ("message", JStr "Please run bulk sync first to create the index")]))
       else
         ret (mkResponse 500
                (JObj [("error", JStr "Search failed");
                       ("message",
                        JStr (if development env then message error
                              else "Internal server error"))]))).

(** [p.split(',').map(s => s.trim())] *)
Definition memberList (p : string) : list string := List.map trim (split "," p).

Definition termsFilter (fieldName : string) (p : option string) : list Query :=
  if Req.given p then [Terms fieldName (memberList (default "" p))] else [].

Definition rangeFilter (dateFrom dateTo : option string) : list Query :=
  if Req.given dateFrom || Req.given dateTo then
    [Range "TIMESTAMP"
       (if Req.given dateFrom then dateFrom else None)
       (if Req.given dateTo then dateTo else None)]
  else [].

Definition advancedQuery (query : Req.Params) : Query :=
  let must :=
    if Req.given (Req.q query)
    then [buildMultiFieldQuery (default "" (Req.q query)) (JBool false) "AUTO"]
    else [] in
  let filter :=
    (termsFilter "SITE" (Req.sites query)
     ++ termsFilter "CLUSTERID" (Req.clusters query)
     ++ termsFilter "USERNAME" (Req.usernames query)
     ++ rangeFilter (Req.dateFrom query) (Req.dateTo query))%list in
  if (Z.of_nat (List.length must) =? 0) && (Z.of_nat (List.length filter) =? 0)
  then MatchAll
  else Bool must [] filter None.

Definition advancedSearch (env : Process) (query : Req.Params) (esClient : EsClient S)
  : M S Response :=
  tryCatch
    (let sortBy := default "_score" (Req.sortBy query) in
     let sortOrder := default "desc" (Req.sortOrder query) in
     let indexName := indexNameOf env in
     let query' := advancedQuery query in
     let sort := buildSortConfig sortBy sortOrder in
     response ← Engine.search esClient
                  (mkSearch indexName query'
                     (Req.parseIntOr (Req.size query) 10)
                     (Req.parseIntOr (Req.from query) 0)
                     sort Aggregations);
     formatAdvanced response)
    (fun error =>
       ret (mkResponse 500
              (JObj [("error", JStr "Advanced search failed");
                     ("message", JStr (message error))]))).

End WithClient.

End SearchController.

(* ===================================================================== *)
(** ** src/routes/searchRoutes.js                                         *)
(* ===================================================================== *)

Module SearchRoutes.

Section WithClient.
Context {S : Type}.

(** [router.get('/', validateSearch, searchController.search)] *)
Definition searchRoute (env : Process) (query : Req.Params) (esClient : EsClient S)
  : M S Response :=
  match Validation.validateSearch query with
  | Some reply => ret reply
  | None => SearchController.search env query esClient
  end.

(** [router.get('/advanced', searchController.advancedSearch)] *)
Definition advancedRoute (env : Process) (query : Req.Params) (esClient : EsClient S)
  : M S Response :=
  SearchController.advancedSearch env query esClient.

End WithClient.

End SearchRoutes.

(* ===================================================================== *)
(** ** Vocabulary of the reconcile properties                             *)
(* ===================================================================== *)

Module Reconcile.

(** The index identifier the sync route gives a record, the source it
    sends for it, and the item a rejecting engine reports for it. *)
Definition idOf (doc : Props) : string := toStr (prop doc "_id").

Definition sourceOf (doc : Props) : JsVal := JObj (withoutProp doc "_id").

Definition metaOf (indexName : string) (doc : Props) : JsVal :=
  JObj [("_index", JStr indexName); ("_id", JStr (idOf doc))].

Definition linesOf (indexName : string) (doc : Props) : list JsVal :=
  [JObj [("index", metaOf indexName doc)]; sourceOf doc].

Definition failureOf (indexName : string) (doc : Props) : JsVal :=
  failedItem (metaOf indexName doc) (JStr (idOf doc)) "mapper_parsing_exception".

Definition itemOf (accepts : JsVal -> bool) (indexName : string) (doc : Props) : JsVal :=
  if accepts (sourceOf doc) then okItem (metaOf indexName doc) (idOf doc)
  else failureOf indexName doc.

Definition rejected (accepts : JsVal -> bool) (doc : Props) : bool :=
  negb (accepts (sourceOf doc)).

(** The index after the accepted sources of a batch have been written. *)
Definition written (accepts : JsVal -> bool) (documents : list Props) (d : gmap string JsVal)
  : gmap string JsVal :=
  fold_left (fun d doc => if accepts (sourceOf doc) then <[idOf doc := sourceOf doc]> d else d)
    documents d.

End Reconcile.

(* ===================================================================== *)
(** ** Sample data                                                        *)
(* ===================================================================== *)

Module Samples.

Definition production : Process :=
  mkProcess None (Some "production") None None "2026-01-01T00:00:00.000Z".

Definition development : Process :=
  mkProcess None (Some "development") None None "2026-01-01T00:00:00.000Z".

Definition noParams : Req.Params :=
  Req.mkParams None None None None None None None None None None None None None.

Definition withQ (q : string) (p : Req.Params) : Req.Params :=
  Req.mkParams (Some q) (Req.field p) (Req.fuzzy p) (Req.fuzziness p) (Req.size p)
    (Req.from p) (Req.sortBy p) (Req.sortOrder p) (Req.sites p) (Req.clusters p)
    (Req.usernames p) (Req.dateFrom p) (Req.dateTo p).

Definition withField (f : string) (p : Req.Params) : Req.Params :=
  Req.mkParams (Req.q p) (Some f) (Req.fuzzy p) (Req.fuzziness p) (Req.size p)
    (Req.from p) (Req.sortBy p) (Req.sortOrder p) (Req.sites p) (Req.clusters p)
    (Req.usernames p) (Req.dateFrom p) (Req.dateTo p).

Definition withSize (n : string) (p : Req.Params) : Req.Params :=
  Req.mkParams (Req.q p) (Req.field p) (Req.fuzzy p) (Req.fuzziness p) (Some n)
    (Req.from p) (Req.sortBy p) (Req.sortOrder p) (Req.sites p) (Req.clusters p)
    (Req.usernames p) (Req.dateFrom p) (Req.dateTo p).

Definition withFrom (n : string) (p : Req.Params) : Req.Params :=
  Req.mkParams (Req.q p) (Req.field p) (Req.fuzzy p) (Req.fuzziness p) (Req.size p)
    (Some n) (Req.sortBy p) (Req.sortOrder p) (Req.sites p) (Req.clusters p)
    (Req.usernames p) (Req.dateFrom p) (Req.dateTo p).

(** A mapping that takes every source. *)
Definition acceptAll (source : JsVal) : bool := true.

(** A mapping whose [IPV4] field is of type [ip]: the value is absent or
    text. *)
Definition ipMapping (source : JsVal) : bool :=
  match member source "IPV4" with
  | JUndefined | JStr _ => true
  | _ => false
  end.

(** An engine reply with no hit, in the unnested shape. *)
Definition noHits (r : SearchRequest) (d : gmap string JsVal) : Exc JsVal :=
  Returned (JObj [("hits", JObj [("total", JObj [("value", JNum 0); ("relation", JStr "eq")]);
                                 ("hits", JArr [])])]).

(** An engine reply that carries both shapes, with different contents. *)
Definition bothShapes : JsVal :=
  JObj [("body",
         JObj [("hits", JObj [("total", JObj [("value", JNum 1); ("relation", JStr "eq")]);
                              ("hits", JArr [JObj [("_id", JStr "66f0a1"); ("_score", JNum 2);
                                                   ("_source", JObj [("SITE", JStr "site-1")])]])])]);
        ("hits", JObj [("total", JObj [("value", JNum 10000); ("relation", JStr "gte")]);
                       ("hits", JArr [])])].

Definition subnetA : Props :=
  [("_id", JObjectId "66f0a1"); ("CLUSTERID", JStr "cluster-100"); ("SITE", JStr "site-1");
   ("IPV4", JStr "192.168.0.1")].

Definition subnetB : Props :=
  [("_id", JObjectId "66f0a2"); ("CLUSTERID", JStr "cluster-101"); ("SITE", JStr "site-2");
   ("IPV4", JNum 3232235521)].

Definition subnetC : Props :=
  [("_id", JObjectId "66f0a3"); ("CLUSTERID", JStr "cluster-102"); ("SITE", JStr "site-3")].

End Samples.

(* ===================================================================== *)
(** ** Vocabulary of the batch-write properties                          *)
(* ===================================================================== *)

Module Batch.

(** The source that a batch leaves under identifier [k]: that of the last
    accepted document with this identifier, if there is one. *)
Fixpoint lastWrite (accepts : JsVal -> bool) (documents : list Props) (k : string)
  : option JsVal :=
  match documents with
  | [] => None
  | doc :: later =>
      match lastWrite accepts later k with
      | Some v => Some v
      | None =>
          if accepts (Reconcile.sourceOf doc) && String.eqb (Reconcile.idOf doc) k
          then Some (Reconcile.sourceOf doc)
          else None
      end
  end.

(** Clauses that filter without scoring. *)
Definition isFilterClause (c : Query) : bool :=
  match c with
  | Terms _ _ | Range _ _ _ => true
  | _ => false
  end.

End Batch.

(* ===================================================================== *)
(** ** src/controllers/searchController.js: autocomplete and getById      *)
(* ===================================================================== *)

Module Suggest.

(** [s.includes(t)]: [t] occurs in [s]. *)
Fixpoint isPrefix (p s : list ascii) : bool :=
  match p, s with
  | [], _ => true
  | a :: p', b :: s' => Ascii.eqb a b && isPrefix p' s'
  | _ :: _, [] => false
  end.

Fixpoint isInfix (p s : list ascii) : bool :=
  isPrefix p s
  || match s with
     | [] => false
     | _ :: s' => isInfix p s'
     end.

Definition strIncludes (s t : string) : bool :=
  isInfix (list_ascii_of_string t) (list_ascii_of_string s).

(** [text.toLowerCase().includes(query.toLowerCase())] *)
Definition mentions (query text : string) : bool :=
  strIncludes (toLowerCase text) (toLowerCase query).

(** Property names every plain object inherits; under them [source[k]] is
    a function or the prototype, which has no [toLowerCase]. *)
Definition inherited : list string :=
  ["constructor"; "toString"; "toLocaleString"; "valueOf"; "hasOwnProperty";
   "isPrototypeOf"; "propertyIsEnumerable"; "__proto__"; "__defineGetter__";
   "__defineSetter__"; "__lookupGetter__"; "__lookupSetter__"].

Definition hasOwn (ps : Props) (k : string) : bool :=
  existsb (fun p => String.eqb (fst p) k) ps.

(** [suggestions.add(text)] on a [Set] of texts, kept in insertion order. *)
Definition add (set : list string) (candidate : option string) : list string :=
  match candidate with
  | Some text => if includes set text then set else (set ++ [text])%list
  | None => set
  end.

Definition suggestion (text : string) : JsVal :=
  JObj [("text", JStr text); ("type", JStr "suggestion")].

Section WithStore.
Context {S : Type}.

(** The guard [v && v.toLowerCase().includes(query.toLowerCase())] on a
    value read from a source: the text to add, if any.  [expr] is the
    expression the value is read by, which the error names. *)
Definition guard (expr : string) (v : JsVal) (query : string) : M S (option string) :=
  if truthy v then
    match v with
    | JStr text => ret (if mentions query text then Some text else None)
    | _ => throw (TypeError (expr +:+ ".toLowerCase is not a function"))
    end
  else ret None.

(** [source[k]] under that guard.  Engine hits carry an object, or
    nothing, under [_source]. *)
Definition candidate (expr : string) (source : JsVal) (k query : string)
  : M S (option string) :=
  if nullish source then throw (cannotRead source k)
  else
    match source with
    | JObj ps =>
        if hasOwn ps k then guard expr (prop ps k) query
        else if includes inherited k
        then throw (TypeError (expr +:+ ".toLowerCase is not a function"))
        else ret None
    | _ => guard expr (member source k) query
    end.

(** The body of [hits.forEach]. *)
Definition visit (query : string) (field : option string) (set : list string) (hit : JsVal)
  : M S (list string) :=
  source ← get hit "_source";
  if Req.given field then
    c ← candidate "source[field]" source (default "" field) query;
    ret (add set c)
  else
    c1 ← candidate "source[fieldName]" source "CLUSTERID" query;
    c2 ← candidate "source[fieldName]" source "SITE" query;
    c3 ← candidate "source[fieldName]" source "USERNAME" query;
    c4 ← candidate "source.VALUE" source "VALUE" query;
    ret (add (add (add (add set c1) c2) c3) c4).

(** [list.forEach(f)] threading the set. *)
Fixpoint forEach (f : list string -> JsVal -> M S (list string)) (set : list string)
    (l : list JsVal) : M S (list string) :=
  match l with
  | [] => ret set
  | x :: rest => set' ← f set x; forEach f set' rest
  end.

Definition formatAutocompleteSuggestions (hits : JsVal) (query : string)
    (field : option string) : M S JsVal :=
  match hits with
  | JArr l =>
      suggestions ← forEach (visit query field) [] l;
      ret (JArr (List.map suggestion (take 10 suggestions)))
  | JUndefined | JNull => throw (cannotRead hits "forEach")
  | _ => throw (TypeError "hits.forEach is not a function")
  end.

Definition autocompleteQuery (q : string) (field : option string) : Query :=
  if Req.given field then
    Bool []
      [Prefix (default "" field) (toLowerCase q) None;
       Wildcard (default "" field) (SearchController.contains q) None]
      [] None
  else
    Bool []
      [Prefix "CLUSTERID" (toLowerCase q) (Some 30);
       Prefix "SITE" (toLowerCase q) (Some 30);
       Prefix "USERNAME" (toLowerCase q) (Some 20);
       Match "CLUSTERID.autocomplete" q None (Some 25);
       Match "SITE.autocomplete" q None (Some 25);
       Wildcard "VALUE" (SearchController.contains q) None]
      [] (Some 1).

(** [response.body?.hits || response.hits || { hits: [] }] *)
Definition suggestHits (response : JsVal) : M S JsVal :=
  body ← get response "body";
  if truthy (optMember body "hits") then ret (optMember body "hits")
  else
    top ← get response "hits";
    ret (jsOr top (JObj [("hits", JArr [])])).

(** [autocomplete].  [suggestSearch index query size] stands for the call
    [esClient.search({ index, body: { query, size, _source: [...] } })],
    whose argument has no [from] and no [sort]. *)
Definition autocomplete (env : Process) (query : Req.Params)
    (suggestSearch : string -> Query -> JsVal -> M S JsVal) : M S Response :=
  tryCatch
    (if negb (Req.given (Req.q query))
        || (Z.of_nat (String.length (default "" (Req.q query))) <? 1)
     then
       ret (mkResponse 400
              (JObj [("error",
                      JStr ("Query parameter " +:+ dquote +:+ "q" +:+ dquote
                              +:+ " is required and must be at least 1 character"))]))
     else
       let q := default "" (Req.q query) in
       let indexName := indexNameOf env in
       let query' := autocompleteQuery q (Req.field query) in
       response ← suggestSearch indexName query' (Req.parseIntOr (Req.size query) 5);
       hits ← suggestHits response;
       suggestions ← formatAutocompleteSuggestions (member hits "hits") q (Req.field query);
       ret (ok (JObj [("query", JStr q); ("suggestions", suggestions)])))
    (fun error =>
       ret (mkResponse 500
              (JObj [("error", JStr "Autocomplete failed");
                     ("message", JStr (message error))]))).

(** [getById].  [esGet index id] stands for [esClient.get({ index, id })]. *)
Definition getById (env : Process) (id : option string)
    (esGet : string -> string -> M S JsVal) : M S Response :=
  tryCatch
    (if negb (Req.given id) then
       ret (mkResponse 400 (JObj [("error", JStr "Document ID is required")]))
     else
       let indexName := indexNameOf env in
       response ← esGet indexName (default "" id);
       body ← get response "body";
       top ← get response "_source";
       let source := jsOr (optMember body "_source") top in
       ret (ok (JObj [("id", jsOr (optMember body "_id") (member response "_id"));
                      ("source", source)])))
    (fun error =>
       if hasStatus error 404 then
         ret (mkResponse 404 (JObj [("error", JStr "Document not found")]))
       else
         ret (mkResponse 500
                (JObj [("error", JStr "Failed to retrieve document");
                       ("message", JStr (message error))]))).

End WithStore.

(** The reference engine's document read: the stored source under the
    identifier, or a 404. *)
Definition ref_get (ix id : string) : M Index JsVal :=
  fun w =>
    match w !! id with
    | Some source =>
        (Returned (JObj [("_index", JStr ix); ("_id", JStr id); ("found", JBool true);
                         ("_source", source)]), w)
    | None => (Thrown (notFound "not_found"), w)
    end.

(** What the suggestion set always is: free of repetitions, and made of
    texts that mention the query. *)
Definition tidy (query : string) (set : list string) : Prop :=
  List.NoDup set /\ Forall (fun text => mentions query text = true) set.

(** Three hits that share a cluster identifier. *)
Definition sharedCluster : JsVal :=
  JArr [JObj [("_id", JStr "1");
              ("_source", JObj [("CLUSTERID", JStr "cluster-1"); ("SITE", JStr "east")])];
        JObj [("_id", JStr "2");
              ("_source", JObj [("CLUSTERID", JStr "cluster-1"); ("SITE", JStr "west")])];
        JObj [("_id", JStr "3");
              ("_source", JObj [("CLUSTERID", JStr "Cluster-1");
                                ("VALUE", JStr "spare CLUster")])]].

End Suggest.

(* ===================================================================== *)
(** ** src/services/mongoService.js                                       *)
(* ===================================================================== *)

Module MongoService.

(** The module's two variables: the database handle (its name) and the
    client handle (the URI it was made for); [None] is [null]. *)
Record Handles : Type := mkHandles {
  db : option string;
  client : option string
}.

Definition notConnected (what : string) : JsError :=
  mkError (what +:+ " not connected. Call connectMongoDB() first.") None.

(** [connectMongoDB]; [connect] is the outcome of [client.connect()]. *)
Definition connectMongoDB (MONGODB_URI : option string) (env : Process) (connect : Exc unit)
  : M Handles string :=
  tryCatch
    (fun h =>
       let uri := envOr MONGODB_URI "mongodb://localhost:27017" in
       let h1 := mkHandles (db h) (Some uri) in
       match connect with
       | Thrown e => (Thrown e, h1)
       | Returned _ =>
           let name := envOr (MONGODB_DATABASE env) "lucene" in
           (Returned name, mkHandles (Some name) (client h1))
       end)
    (fun error => throw error).

Definition getDB : M Handles string :=
  fun h =>
    match db h with
    | None => (Thrown (notConnected "MongoDB"), h)
    | Some d => (Returned d, h)
    end.

Definition getClient : M Handles string :=
  fun h =>
    match client h with
    | None => (Thrown (notConnected "MongoDB client"), h)
    | Some c => (Returned c, h)
    end.

(** [getCollection(collectionName)]: the database and the collection name
    the handle is for. *)
Definition getCollection (collectionName : option string) (env : Process)
  : M Handles (string * string) :=
  database ← getDB;
  let collection := envOr collectionName (envOr (MONGODB_COLLECTION env) "subnet_details") in
  ret (database, collection).

(** [closeMongoDB]; [close] is the outcome of [client.close()]. *)
Definition closeMongoDB (close : Exc unit) : M Handles unit :=
  tryCatch
    (fun h =>
       match client h with
       | Some _ =>
           match close with
           | Thrown e => (Thrown e, h)
           | Returned _ => (Returned tt, mkHandles None None)
           end
       | None => (Returned tt, h)
       end)
    (fun error => throw error).

Definition disconnected : Handles := mkHandles None None.

End MongoService.

(* ===================================================================== *)
(** ** src/services/elasticsearchService.js                               *)
(* ===================================================================== *)

Module ElasticsearchService.

(** The client configuration: the node and, when set, the credentials. *)
Record Config : Type := mkConfig {
  node : string;
  auth : option (string * string)
}.

(** The environment variables of the connection. *)
Record Vars : Type := mkVars {
  ELASTICSEARCH_NODE : option string;
  ELASTICSEARCH_USERNAME : option string;
  ELASTICSEARCH_PASSWORD : option string
}.

(** The [config] object [connectElasticsearch] builds. *)
Definition configOf (vars : Vars) : Config :=
  let config := mkConfig (envOr (ELASTICSEARCH_NODE vars) "http://localhost:9200") None in
  if Req.given (ELASTICSEARCH_USERNAME vars) && Req.given (ELASTICSEARCH_PASSWORD vars)
  then mkConfig (node config)
         (Some (default "" (ELASTICSEARCH_USERNAME vars),
                default "" (ELASTICSEARCH_PASSWORD vars)))
  else config.

(** The index administration calls of the client, over a cluster [C]. *)
Record Indices (C : Type) : Type := mkIndices {
  exists_ : string -> M C JsVal;
  create : string -> M C JsVal
}.
Arguments exists_ {C} _ _ _.
Arguments create {C} _ _ _.

(** The module's variable [esClient] and the cluster it talks to. *)
Record World (C : Type) : Type := mkWorld {
  esClient : option Config;
  cluster : C
}.
Arguments mkWorld {C} _ _.
Arguments esClient {C} _.
Arguments cluster {C} _.

Section WithCluster.
Context {C : Type}.

(** Runs a cluster call from the module, which reads [esClient] first:
    with no client the property access throws. *)
Definition viaClient {A} (what : string) (call : M C A) : M (World C) A :=
  fun w =>
    match esClient w with
    | None => (Thrown (cannotRead JNull what), w)
    | Some _ => let '(r, c') := call (cluster w) in (r, mkWorld (esClient w) c')
    end.

Definition createIndexIfNotExists (env : Process) (indices : Indices C) : M (World C) unit :=
  let indexName := indexNameOf env in
  tryCatch
    (present ← viaClient "indices" (exists_ indices indexName);
     if negb (truthy present) then
       _ ← viaClient "indices" (create indices indexName);
       ret tt
     else ret tt)
    (fun error => throw error).

(** [connectElasticsearch]; [health] is the outcome of
    [esClient.cluster.health()], whose [status] is then read for the log. *)
Definition connectElasticsearch (vars : Vars) (env : Process) (health : Exc JsVal)
    (indices : Indices C) : M (World C) Config :=
  tryCatch
    (let config := configOf vars in
     (fun w => (Returned tt, mkWorld (Some config) (cluster w)));;
     report ← liftE health;
     _ ← get report "status";
     createIndexIfNotExists env indices;;
     ret config)
    (fun error => throw error).

Definition getClient : M (World C) Config :=
  fun w =>
    match esClient w with
    | None =>
        (Thrown (mkError "Elasticsearch not connected. Call connectElasticsearch() first." None),
         w)
    | Some c => (Returned c, w)
    end.

End WithCluster.


End ElasticsearchService.

(* ===================================================================== *)
(** ** Remaining helpers: test data, autocomplete validation              *)
(* ===================================================================== *)

Module TestData.

(** The record [generateBulkData] pushes for index [i]; [date] is the
    value of [new Date()]. *)
Definition record (date : JsVal) (i : Z) : Props :=
  [("CLUSTERID", JStr ("cluster-" +:+ pretty (100 + i)));
   ("CIDR", JStr ("192.168." +:+ pretty i +:+ ".0/24"));
   ("CIDRIPV4", JStr ("192.168." +:+ pretty i +:+ ".0/24"));
   ("IPV4", JStr ("192.168." +:+ pretty i +:+ ".1"));
   ("IP", JStr ("192.168." +:+ pretty i +:+ ".1"));
   ("SITE", JStr ("site-" +:+ pretty (i mod 5 + 1)));
   ("DESCRIPTION",
    JStr ("Test subnet " +:+ pretty i +:+ " for "
            +:+ (if i mod 2 =? 0 then "development" else "production")));
   ("TIMESTAMP", date);
   ("USERNAME", JStr ("user" +:+ pretty (i mod 3 + 1)))].

(** [generateBulkData(count)]: the loop runs for [i = 0 .. count - 1]. *)
Definition generateBulkData (date : JsVal) (count : Z) : list Props :=
  List.map (record date) (seqZ 0 count).

End TestData.

Module AutocompleteRoute.

(** [validateAutocomplete] *)
Definition validateAutocomplete (query : Req.Params) : option Response :=
  if negb (Req.given (Req.q query))
     || (Z.of_nat (String.length (trim (default "" (Req.q query)))) =? 0)
  then Validation.reject ("Query parameter " +:+ dquote +:+ "q" +:+ dquote
                            +:+ " is required and cannot be empty")
  else if Req.given (Req.size query)
          && (isNaN (default "" (Req.size query))
              || ltNum (parseInt (default "" (Req.size query))) 1
              || gtNum (parseInt (default "" (Req.size query))) 20)
  then Validation.reject "Size must be a number between 1 and 20"
  else None.

(** [router.get('/autocomplete', validateAutocomplete, searchController.autocomplete)] *)
Definition autocompleteRoute {S : Type} (env : Process) (query : Req.Params)
    (suggestSearch : string -> Query -> JsVal -> M S JsVal) : M S Response :=
  match validateAutocomplete query with
  | Some reply => ret reply
  | None => Suggest.autocomplete env query suggestSearch
  end.

(** The fields the formatter looks up in a source. *)
Definition lookedUp (field : option string) : list string :=
  if Req.given field then [default "" field] else ["CLUSTERID"; "SITE"; "USERNAME"; "VALUE"].

(** A value that passes or skips the formatter's guard: text, or falsy. *)
Definition textOrEmpty (v : JsVal) : bool :=
  negb (truthy v) || match v with JStr _ => true | _ => false end.

(** A hit whose source is an object holding, under each looked-up field,
    text or nothing. *)
Definition plainHit (fields : list string) (hit : JsVal) : bool :=
  match member hit "_source" with
  | JObj ps =>
      forallb (fun k => if Suggest.hasOwn ps k then textOrEmpty (prop ps k)
                        else negb (includes Suggest.inherited k)) fields
  | _ => false
  end.

End AutocompleteRoute.

(* ===================================================================== *)
(** ** req.query as Express hands it to advancedSearch                    *)
(* ===================================================================== *)

Module Express.

Import SearchController.

(** One key of the query string as the query parser delivers it: absent,
    given once (a string), given several times (an array of strings), or
    written with brackets (an object). *)
Inductive Raw : Type :=
  | Absent
  | One (s : string)
  | Many (l : list string)
  | Nested.

(** The keys [advancedSearch] destructures from [req.query].  The two
    date bounds are taken as given at most once. *)
Record RawParams : Type := mkRaw {
  q : Raw;
  sites : Raw;
  clusters : Raw;
  usernames : Raw;
  size : Raw;
  from : Raw;
  sortBy : Raw;
  sortOrder : Raw;
  dateFrom : option string;
  dateTo : option string
}.

(** Truthiness: arrays and objects are truthy, the empty string is not. *)
Definition truthyRaw (r : Raw) : bool :=
  match r with
  | Absent => false
  | One s => negb (String.eqb s "")
  | Many _ | Nested => true
  end.

(** The key as an optional string, when it was given at most once. *)
Definition single (r : Raw) : option (option string) :=
  match r with
  | Absent => Some None
  | One s => Some (Some s)
  | Many _ | Nested => None
  end.

Definition text (r : Raw) : option string :=
  match r with One s => Some s | _ => None end.

(** [q], [sites], [clusters] and [usernames] each given at most once. *)
Definition isSingle (r : Raw) : bool :=
  match r with Absent | One _ => true | Many _ | Nested => false end.

Definition singleValued (raw : RawParams) : bool :=
  isSingle (q raw) && isSingle (sites raw) && isSingle (clusters raw)
  && isSingle (usernames raw).

(** [parseInt(p)] where [p] has a numeric default: [parseInt] reads the
    string of its argument, which for an array is its elements joined by
    commas and for an object the text [[object Object]]. *)
Definition rawInt (r : Raw) (dflt : Z) : JsVal :=
  match r with
  | Absent => JNum dflt
  | One s => parseInt s
  | Many l => parseInt (String.concat "," l)
  | Nested => parseInt "[object Object]"
  end.

(** The argument [buildSortConfig] receives.  An array or an object is in
    neither of its lists, so the fallback applies, as it does for the
    fallback value itself. *)
Definition rawText (r : Raw) (dflt fallback : string) : string :=
  match r with
  | Absent => dflt
  | One s => s
  | Many _ | Nested => fallback
  end.

(** The request as the string-only record, when every key was given at
    most once. *)
Definition toParams (raw : RawParams) : option Req.Params :=
  q' ← single (q raw);
  sites' ← single (sites raw);
  clusters' ← single (clusters raw);
  usernames' ← single (usernames raw);
  size' ← single (size raw);
  from' ← single (from raw);
  sortBy' ← single (sortBy raw);
  sortOrder' ← single (sortOrder raw);
  Some (Req.mkParams q' None None None size' from' sortBy' sortOrder'
          sites' clusters' usernames' (dateFrom raw) (dateTo raw)).

(** The keys the query is built from, for a request that gives each of
    them at most once. *)
Definition filtersOf (raw : RawParams) : Req.Params :=
  Req.mkParams (text (q raw)) None None None None None None None
    (text (sites raw)) (text (clusters raw)) (text (usernames raw))
    (dateFrom raw) (dateTo raw).

Section WithClient.
Context {S : Type}.

(** [if (q) query.bool.must.push(await buildMultiFieldQuery(q, false, 'AUTO'))]:
    the builder calls [q.toLowerCase()], which only a string has. *)
Definition rawMust (r : Raw) : M S (list Query) :=
  if truthyRaw r then
    match r with
    | One s => ret [buildMultiFieldQuery s (JBool false) "AUTO"]
    | _ => throw (TypeError "q.toLowerCase is not a function")
    end
  else ret [].

(** [if (p) query.bool.filter.push({ terms: { F: p.split(',').map(s => s.trim()) } })] *)
Definition rawTerms (fieldName name : string) (r : Raw) : M S (list Query) :=
  if truthyRaw r then
    match r with
    | One s => ret [Terms fieldName (memberList s)]
    | _ => throw (TypeError (name +:+ ".split is not a function"))
    end
  else ret [].

Definition advancedSearch (env : Process) (raw : RawParams) (esClient : EsClient S)
  : M S Response :=
  tryCatch
    (let indexName := indexNameOf env in
     must ← rawMust (q raw);
     bySite ← rawTerms "SITE" "sites" (sites raw);
     byCluster ← rawTerms "CLUSTERID" "clusters" (clusters raw);
     byUser ← rawTerms "USERNAME" "usernames" (usernames raw);
     let filter :=
       (bySite ++ byCluster ++ byUser ++ rangeFilter (dateFrom raw) (dateTo raw))%list in
     let query' :=
       if (Z.of_nat (List.length must) =? 0) && (Z.of_nat (List.length filter) =? 0)
       then MatchAll
       else Bool must [] filter None in
     let sort := buildSortConfig (rawText (sortBy raw) "_score" "_score")
                                 (rawText (sortOrder raw) "desc" "desc") in
     response ← Engine.search esClient
                  (mkSearch indexName query'
                     (rawInt (size raw) 10)
                     (rawInt (from raw) 0)
                     sort Aggregations);
     formatAdvanced response)
    (fun error =>
       ret (mkResponse 500
              (JObj [("error", JStr "Advanced search failed");
                     ("message", JStr (message error))]))).

(** [router.get('/advanced', searchController.advancedSearch)] *)
Definition advancedRoute (env : Process) (raw : RawParams) (esClient : EsClient S)
  : M S Response :=
  advancedSearch env raw esClient.

End WithClient.

(** Sample requests. *)
Definition noParams : RawParams :=
  mkRaw Absent Absent Absent Absent Absent Absent Absent Absent None None.

Definition withSize (r : Raw) (p : RawParams) : RawParams :=
  mkRaw (q p) (sites p) (clusters p) (usernames p) r (from p) (sortBy p) (sortOrder p)
    (dateFrom p) (dateTo p).

Definition withFrom (r : Raw) (p : RawParams) : RawParams :=
  mkRaw (q p) (sites p) (clusters p) (usernames p) (size p) r (sortBy p) (sortOrder p)
    (dateFrom p) (dateTo p).


End Express.

(* ===================================================================== *)
(** * Properties                                                          *)
(* ===================================================================== *)

Import BatchOperations SyncService SyncRoutes SearchController SearchRoutes.

(** ** Built-ins on sample inputs *)

Example parseInt_samples :
  List.map parseInt ["0"; "101"; "-1"; " 42px"; "0x1f"; "abc"; ""; "+7"; "12.5"]
  = [JNum 0; JNum 101; JNum (-1); JNum 42; JNum 31; JNaN; JNaN; JNum 7; JNum 12].
Proof. vm_compute. reflexivity. Qed.

Example isNaN_samples :
  List.map isNaN ["0"; "101"; "-1"; " 42 "; "42px"; "0x1f"; "abc"; ""; "1e3"; ".5"; "5.";
                  "-Infinity"; "."; "1e"; "0b102"]
  = [false; false; false; false; true; false; true; false; false; false; false;
     false; true; true; true].
Proof. vm_compute. reflexivity. Qed.

Example case_and_split_samples :
  toUpperCase "site" = "SITE" /\ toLowerCase "East-1" = "east-1"
  /\ List.map trim (split "," "a, b ,c") = ["a"; "b"; "c"] /\ trim "  " = "".
Proof. vm_compute. repeat split; reflexivity. Qed.

(** ** Objects as property lists *)

Lemma prop_setProp_same (ps : Props) k v : prop (setProp ps k v) k = v.
Proof.
  induction ps as [|[k' v'] ps IH]; cbn.
  - by rewrite String.eqb_refl.
  - destruct (String.eqb k' k) eqn:E; cbn; rewrite E; [done | apply IH].
Qed.

Lemma prop_setProp_other (ps : Props) k k' v :
  k <> k' -> prop (setProp ps k v) k' = prop ps k'.
Proof.
  intros Hne. induction ps as [|[k0 v0] ps IH]; cbn.
  - destruct (String.eqb k k') eqn:E; [apply String.eqb_eq in E; contradiction | done].
  - destruct (String.eqb k0 k) eqn:E; cbn.
    + apply String.eqb_eq in E. subst k0.
      destruct (String.eqb k k') eqn:E'; [apply String.eqb_eq in E'; contradiction | done].
    + destruct (String.eqb k0 k'); [done | apply IH].
Qed.

Lemma prop_withoutProp_same (ps : Props) k : prop (withoutProp ps k) k = JUndefined.
Proof.
  induction ps as [|[k' v'] ps IH]; cbn; [done|].
  destruct (String.eqb k' k) eqn:E; cbn; [apply IH | rewrite E; apply IH].
Qed.

Lemma prop_withoutProp_other (ps : Props) k k' :
  k <> k' -> prop (withoutProp ps k) k' = prop ps k'.
Proof.
  intros Hne. induction ps as [|[k0 v0] ps IH]; cbn; [done|].
  destruct (String.eqb k0 k) eqn:E; cbn.
  - apply String.eqb_eq in E. subst k0.
    destruct (String.eqb k k') eqn:E'; [apply String.eqb_eq in E'; contradiction | apply IH].
  - destruct (String.eqb k0 k'); [done | apply IH].
Qed.

(** ** Sort translation *)

(** C4 (as the code has it): an unknown sort field falls back to relevance,
    an unknown direction falls back to descending, and every sort on a
    field other than relevance is followed by relevance-descending as the
    tie-break.  The fallback for an unknown field keeps the requested
    direction when that one is valid, so it is relevance-descending only
    when the direction is [desc] or invalid.  The function is total: no
    input makes it fail. *)
Theorem buildSortConfig_fallbacks (sortBy sortOrder : string) :
  let dir := if includes ["asc"; "desc"] sortOrder then sortOrder else "desc" in
  (includes validSortFields sortBy = false ->
     buildSortConfig sortBy sortOrder = [mkSort "_score" dir])
  /\ (includes validSortFields sortBy = true -> sortBy <> "_score" ->
     buildSortConfig sortBy sortOrder = [mkSort sortBy dir; mkSort "_score" "desc"])
  /\ (sortBy = "_score" -> buildSortConfig sortBy sortOrder = [mkSort "_score" dir])
  /\ (includes ["asc"; "desc"] sortOrder = false -> dir = "desc").
Proof.
  intros dir. unfold buildSortConfig. fold dir. repeat split.
  - intros ->. reflexivity.
  - intros -> Hne.
    destruct (String.eqb sortBy "_score") eqn:E; [|reflexivity].
    apply String.eqb_eq in E. contradiction.
  - intros ->. reflexivity.
  - intros H. subst dir. by rewrite H.
Qed.

Lemma buildSortConfig_fallbacks_witness :
  buildSortConfig "bogus" "sideways" = [mkSort "_score" "desc"]
  /\ buildSortConfig "SITE" "asc" = [mkSort "SITE" "asc"; mkSort "_score" "desc"]
  /\ buildSortConfig "_score" "asc" = [mkSort "_score" "asc"].
Proof.
  split; [|split].
  - apply (proj1 (buildSortConfig_fallbacks "bogus" "sideways")). reflexivity.
  - apply (proj1 (proj2 (buildSortConfig_fallbacks "SITE" "asc"))); [reflexivity | discriminate].
  - apply (proj1 (proj2 (proj2 (buildSortConfig_fallbacks "_score" "asc")))). reflexivity.
Defined.

(** C4, the claim as worded, fails: with an unknown field and direction
    [asc] the result is relevance ascending. *)
Lemma buildSortConfig_bogus_asc :
  includes validSortFields "bogus" = false
  /\ buildSortConfig "bogus" "asc" = [mkSort "_score" "asc"]
  /\ buildSortConfig "bogus" "asc" <> [mkSort "_score" "desc"].
Proof. split; [reflexivity | split; [reflexivity | discriminate]]. Qed.

(** ** Projection *)

Lemma pushIf_filter (v : JsVal) (acc : list JsVal) :
  pushIf v acc = (acc ++ List.filter truthy [v])%list.
Proof. unfold pushIf. cbn. destruct (truthy v); [done | by rewrite app_nil_r]. Qed.

Lemma suggestInput_filter (doc : Props) :
  suggestInput doc
  = List.filter truthy [prop doc "CLUSTERID"; prop doc "SITE"; prop doc "DESCRIPTION"].
Proof.
  unfold suggestInput. rewrite !pushIf_filter. cbn.
  destruct (truthy (prop doc "CLUSTERID")), (truthy (prop doc "SITE")),
    (truthy (prop doc "DESCRIPTION")); reflexivity.
Qed.

(** C5 (as the code has it): [suggest.input] is the array, in the fixed
    order CLUSTERID, SITE, DESCRIPTION, of those of the three values that
    are truthy.  Absent and empty values are left out; nothing removes a
    value that two fields share, so it is listed once per field. *)
Theorem transformForElasticsearch_suggest (doc : Props) :
  prop (transformForElasticsearch doc) "suggest"
  = JObj [("input",
           JArr (List.filter truthy
                   [prop doc "CLUSTERID"; prop doc "SITE"; prop doc "DESCRIPTION"]));
          ("contexts", JObj [("category", JArr [JStr "subnet"; JStr "network"])])]
  /\ Forall (fun v => truthy v = true) (suggestInput doc)
  /\ ~ In (JStr "") (suggestInput doc)
  /\ ~ In JUndefined (suggestInput doc).
Proof.
  assert (Hall : Forall (fun v => truthy v = true) (suggestInput doc)).
  { rewrite suggestInput_filter. apply List.Forall_forall.
    intros v Hv. apply List.filter_In in Hv. tauto. }
  split; [|split; [exact Hall|split]].
  - unfold transformForElasticsearch. rewrite prop_setProp_same.
    by rewrite suggestInput_filter.
  - intros Hin. rewrite List.Forall_forall in Hall. specialize (Hall _ Hin). discriminate.
  - intros Hin. rewrite List.Forall_forall in Hall. specialize (Hall _ Hin). discriminate.
Qed.

(** C5, the claim as worded, fails: a value shared by two fields is listed
    twice. *)
Lemma suggestInput_keeps_duplicates :
  suggestInput [("_id", JObjectId "66f0a1"); ("CLUSTERID", JStr "edge"); ("SITE", JStr "edge")]
  = [JStr "edge"; JStr "edge"]
  /\ ~ List.NoDup (suggestInput [("_id", JObjectId "66f0a1"); ("CLUSTERID", JStr "edge");
                                 ("SITE", JStr "edge")]).
Proof.
  split; [reflexivity|].
  intros H. cbn in H. inversion H as [|? ? Hnot _]. apply Hnot. left. reflexivity.
Qed.

(** ** Evaluation of the handlers *)

Ltac run :=
  unfold mbind, M_bind, mret, M_ret, bind, ret, throw, tryCatch, liftE in *.

Lemma storeFree_ret {W A} (a : A) : storeFree (@ret W A a).
Proof. intros w. reflexivity. Qed.

Lemma storeFree_throw {W A} e : storeFree (@throw W A e).
Proof. intros w. reflexivity. Qed.

Lemma storeFree_bind {W A B} (m : M W A) (k : A -> M W B) :
  storeFree m -> (forall a, storeFree (k a)) -> storeFree (bind m k).
Proof.
  intros Hm Hk w. unfold bind. specialize (Hm w).
  destruct (m w) as [[a|e] w']; cbn in *; subst; [apply Hk | reflexivity].
Qed.

Lemma storeFree_get {W} v k : storeFree (@get W v k).
Proof. unfold get. destruct (nullish v); [apply storeFree_throw | apply storeFree_ret]. Qed.

Lemma storeFree_mapM {W A B} (f : A -> M W B) l :
  (forall a, storeFree (f a)) -> storeFree (mapM f l).
Proof.
  intros Hf. induction l as [|x l IH]; cbn; [apply storeFree_ret|].
  apply storeFree_bind; [apply Hf|]. intros y.
  apply storeFree_bind; [apply IH|]. intros ys. apply storeFree_ret.
Qed.

Lemma storeFree_rawHits {W} response : storeFree (@rawHits W response).
Proof.
  unfold rawHits. apply storeFree_bind; [apply storeFree_get|]. intros body.
  destruct (truthy _); [apply storeFree_ret|].
  apply storeFree_bind; [apply storeFree_get|]. intros top. apply storeFree_ret.
Qed.

Lemma storeFree_mapHits {W} f hits :
  (forall h, storeFree (f h)) -> storeFree (@mapHits W f hits).
Proof.
  intros Hf. unfold mapHits. destruct (nullish _); [apply storeFree_ret|].
  destruct (member hits "hits"); try apply storeFree_throw.
  apply storeFree_bind; [by apply storeFree_mapM|]. intros l'. apply storeFree_ret.
Qed.

Lemma storeFree_searchHit {W} hit : storeFree (@searchHit W hit).
Proof.
  unfold searchHit. apply storeFree_bind; [apply storeFree_get|].
  intros id. apply storeFree_ret.
Qed.


(** Formatting never touches the store, and what it returns is a 200. *)
Lemma formatSearch_outcome {W} response (w : W) :
  (exists reply, formatSearch response w = (Returned reply, w) /\ status reply = 200)
  \/ (exists e, formatSearch response w = (Thrown e, w)).
Proof.
  unfold formatSearch. run.
  pose proof (storeFree_rawHits response w) as H1.
  destruct (rawHits response w) as [[hits|e] w1]; cbn in H1; subst w1; [|right; eauto].
  pose proof (storeFree_mapHits searchHit hits storeFree_searchHit w) as H2.
  destruct (mapHits searchHit hits w) as [[l|e] w2]; cbn in H2; subst w2; [|right; eauto].
  left. eexists. split; reflexivity.
Qed.


(** ** Consistency tracker *)

(** C9: the status probe reports [synced = (record_count == index_count)]
    and [difference = record_count - index_count]; the index count is
    zero when the engine answers 404 (no index yet), and any other failure
    of the count call is answered as an error. *)
Theorem statusRoute_snapshot {S : Type} (env : Process) (collection : Collection)
    (esClient : EsClient S) (s : S) (mongoCount : Z) :
  countDocuments collection = Returned mongoCount ->
  let snapshot (reply : Response) (indexCount : Z) :=
    status reply = 200
    /\ member (member (json reply) "mongodb") "count" = JNum mongoCount
    /\ member (member (json reply) "elasticsearch") "count" = JNum indexCount
    /\ member (json reply) "synced" = JBool (mongoCount =? indexCount)
    /\ member (json reply) "difference" = JNum (mongoCount - indexCount) in
  match count esClient (indexNameOf env) s with
  | (Returned esResponse, s') =>
      exists reply, statusRoute env collection esClient s = (Returned reply, s')
                    /\ snapshot reply (countOf esResponse)
  | (Thrown esError, s') =>
      if hasStatus esError 404 then
        exists reply, statusRoute env collection esClient s = (Returned reply, s')
                      /\ snapshot reply 0
      else
        exists reply, statusRoute env collection esClient s = (Returned reply, s')
                      /\ status reply = 500
                      /\ member (json reply) "error" = JStr "Failed to get sync status"
                      /\ member (json reply) "message" = JStr (message esError)
  end.
Proof.
  intros Hcount snapshot. unfold statusRoute, indexCount. run. rewrite Hcount.
  destruct (count esClient (indexNameOf env) s) as [[esResponse|esError] s'].
  - eexists. split; [reflexivity|]. repeat split.
  - destruct (hasStatus esError 404).
    + eexists. split; [reflexivity|]. repeat split.
    + eexists. split; [reflexivity|]. repeat split.
Qed.

Lemma statusRoute_snapshot_witness :
  exists reply,
    statusRoute Samples.production (mkCollection (Returned []) (Returned 3))
      (elastic Samples.acceptAll Samples.noHits) {["66f0a1" := JObj Samples.subnetA]}
    = (Returned reply, {["66f0a1" := JObj Samples.subnetA]})
    /\ status reply = 200
    /\ member (member (json reply) "mongodb") "count" = JNum 3
    /\ member (member (json reply) "elasticsearch") "count" = JNum 1
    /\ member (json reply) "synced" = JBool false
    /\ member (json reply) "difference" = JNum 2.
Proof.
  exact (statusRoute_snapshot Samples.production (mkCollection (Returned []) (Returned 3))
           (elastic Samples.acceptAll Samples.noHits)
           {["66f0a1" := JObj Samples.subnetA]} 3 eq_refl).
Defined.

(** ** [parseInt] on decimal literals *)





(** ** The size of what [parseInt] returns *)







(** ** Field-scoped search *)

(** C3: the request [q = east], [field = NOPE] names a field outside the
    allow-list.  No query goes to the engine, but the answer is a 500
    [Search failed], not a client error, and outside development mode its
    message does not name the field: the error thrown by
    [buildFieldSpecificQuery] falls into the handler's catch-all branch.
    The handler's own check of [q], a few lines above, answers 400. *)
Lemma search_unknown_field_is_server_error :
  lookupField fieldMapping (toUpperCase "NOPE") = None
  /\ search Samples.production
       (Samples.withField "NOPE" (Samples.withQ "east" Samples.noParams))
       (spy (elastic Samples.acceptAll Samples.noHits)) (∅, [])
     = (Returned (mkResponse 500 (JObj [("error", JStr "Search failed");
                                        ("message", JStr "Internal server error")])),
        (∅, []))
  /\ search Samples.development
       (Samples.withField "NOPE" (Samples.withQ "east" Samples.noParams))
       (spy (elastic Samples.acceptAll Samples.noHits)) (∅, [])
     = (Returned (mkResponse 500 (JObj [("error", JStr "Search failed");
                                        ("message", JStr "Invalid field: NOPE")])),
        (∅, []))
  /\ search Samples.production (Samples.withField "NOPE" Samples.noParams)
       (spy (elastic Samples.acceptAll Samples.noHits)) (∅, [])
     = (Returned (mkResponse 400
                    (JObj [("error", JStr ("Query parameter " +:+ dquote +:+ "q" +:+ dquote
                                             +:+ " is required"))])),
        (∅, [])).
Proof. repeat split. Qed.

(** ** Pagination on the two search routes *)

(** The instrumented client adds its call to the log and otherwise behaves
    as the client it wraps. *)
Lemma spy_search {S : Type} (inner : EsClient S) (r : SearchRequest) (s : S) (log : list Call) :
  Engine.search (spy inner) r (s, log)
  = (fst (Engine.search inner r s), (snd (Engine.search inner r s), (log ++ [CallSearch r])%list)).
Proof. cbn. unfold logged. cbn. by destruct (Engine.search inner r s). Qed.

Lemma rawMust_single {S : Type} (r : Express.Raw) (w : S) :
  Express.isSingle r = true ->
  Express.rawMust r w
  = (Returned (if Req.given (Express.text r)
               then [buildMultiFieldQuery (default "" (Express.text r)) (JBool false) "AUTO"]
               else []), w).
Proof.
  destruct r as [|text|l|]; try discriminate; intros _; [reflexivity|].
  unfold Express.rawMust, Express.truthyRaw, Req.given, Express.text.
  by destruct (negb (String.eqb text "")).
Qed.

Lemma rawTerms_single {S : Type} (fieldName name : string) (r : Express.Raw) (w : S) :
  Express.isSingle r = true ->
  Express.rawTerms fieldName name r w = (Returned (termsFilter fieldName (Express.text r)), w).
Proof.
  destruct r as [|text|l|]; try discriminate; intros _; [reflexivity|].
  unfold Express.rawTerms, Express.truthyRaw, termsFilter, Req.given, Express.text.
  by destruct (negb (String.eqb text "")).
Qed.

(** A request that gives [q], [sites], [clusters] and [usernames] at most
    once gets past the query builder: what is left of [advancedSearch] is
    the engine call and the formatting of its answer. *)
Lemma advancedSearch_single {S : Type} (env : Process) (raw : Express.RawParams)
    (esClient : EsClient S) (w : S) :
  Express.singleValued raw = true ->
  Express.advancedSearch env raw esClient w
  = tryCatch
      (response ← Engine.search esClient
                    (mkSearch (indexNameOf env) (advancedQuery (Express.filtersOf raw))
                       (Express.rawInt (Express.size raw) 10)
                       (Express.rawInt (Express.from raw) 0)
                       (buildSortConfig
                          (Express.rawText (Express.sortBy raw) "_score" "_score")
                          (Express.rawText (Express.sortOrder raw) "desc" "desc"))
                       Aggregations);
       formatAdvanced response)
      (fun error =>
         ret (mkResponse 500
                (JObj [("error", JStr "Advanced search failed");
                       ("message", JStr (message error))]))) w.
Proof.
  unfold Express.singleValued. intros H.
  apply andb_true_iff in H as [H Husers]. apply andb_true_iff in H as [H Hclusters].
  apply andb_true_iff in H as [Hq Hsites].
  unfold Express.advancedSearch. run.
  rewrite rawMust_single by exact Hq.
  rewrite rawTerms_single by exact Hsites.
  rewrite rawTerms_single by exact Hclusters.
  rewrite rawTerms_single by exact Husers.
  reflexivity.
Qed.

Lemma single_text (r : Express.Raw) (o : option string) :
  Express.single r = Some o ->
  Express.isSingle r = true /\ Express.text r = o
  /\ (forall dflt, Express.rawInt r dflt = Req.parseIntOr o dflt)
  /\ (forall dflt fallback, Express.rawText r dflt fallback = default dflt o).
Proof. destruct r; intros [= <-]; repeat split. Qed.

(** On a request whose keys are all given at most once the handler is the
    one over the string-only record. *)
Lemma advancedRoute_toParams {S : Type} (env : Process) (raw : Express.RawParams)
    (query : Req.Params) (esClient : EsClient S) (w : S) :
  Express.toParams raw = Some query ->
  Express.advancedRoute env raw esClient w = advancedRoute env query esClient w.
Proof.
  unfold Express.toParams. intros H.
  destruct (Express.single (Express.q raw)) as [q'|] eqn:Eq; [|discriminate].
  destruct (Express.single (Express.sites raw)) as [sites'|] eqn:Esites; [|discriminate].
  destruct (Express.single (Express.clusters raw)) as [clusters'|] eqn:Eclusters;
    [|discriminate].
  destruct (Express.single (Express.usernames raw)) as [usernames'|] eqn:Eusers;
    [|discriminate].
  destruct (Express.single (Express.size raw)) as [size'|] eqn:Esize; [|discriminate].
  destruct (Express.single (Express.from raw)) as [from'|] eqn:Efrom; [|discriminate].
  destruct (Express.single (Express.sortBy raw)) as [sortBy'|] eqn:EsortBy; [|discriminate].
  destruct (Express.single (Express.sortOrder raw)) as [sortOrder'|] eqn:EsortOrder;
    [|discriminate].
  cbn in H. injection H as <-.
  apply single_text in Eq as [Hq [Tq _]], Esites as [Hsites [Tsites _]],
    Eclusters as [Hclusters [Tclusters _]], Eusers as [Husers [Tusers _]],
    Esize as [_ [_ [Isize _]]], Efrom as [_ [_ [Ifrom _]]],
    EsortBy as [_ [_ [_ TsortBy]]], EsortOrder as [_ [_ [_ TsortOrder]]].
  unfold Express.advancedRoute.
  rewrite advancedSearch_single
    by (unfold Express.singleValued; by rewrite Hq, Hsites, Hclusters, Husers).
  unfold Express.filtersOf. rewrite Tq, Tsites, Tclusters, Tusers, Isize, Ifrom, TsortBy,
    TsortOrder.
  reflexivity.
Qed.





(** Three out-of-range requests on the advanced route: each reaches the
    engine with the parsed value. *)
Example advancedRoute_out_of_range_samples :
  List.map
    (fun raw =>
       snd (snd (Express.advancedRoute Samples.production raw
                   (spy (elastic Samples.acceptAll Samples.noHits)) (∅, []))))
    [Express.withSize (Express.One "0") Express.noParams;
     Express.withSize (Express.One "101") Express.noParams;
     Express.withFrom (Express.One "-1") Express.noParams]
  = [[CallSearch (mkSearch "subnet_search" MatchAll (JNum 0) (JNum 0)
                    [mkSort "_score" "desc"] Aggregations)];
     [CallSearch (mkSearch "subnet_search" MatchAll (JNum 101) (JNum 0)
                    [mkSort "_score" "desc"] Aggregations)];
     [CallSearch (mkSearch "subnet_search" MatchAll (JNum 10) (JNum (-1))
                    [mkSort "_score" "desc"] Aggregations)]].
Proof. reflexivity. Qed.

(** ** Result formatter *)

Lemma formatSearch_reply {W} (response hits list : JsVal) (w : W) :
  rawHits response w = (Returned hits, w) ->
  mapHits searchHit hits w = (Returned list, w) ->
  formatSearch response w
  = (Returned (ok (JObj [("total", JObj [("value", totalValueOf hits);
                                         ("relation", relationOf hits)]);
                         ("hits", list)])), w).
Proof. intros H1 H2. unfold formatSearch. run. by rewrite H1, H2. Qed.

Lemma formatAdvanced_reply {W} (response hits list : JsVal) (w : W) :
  rawHits response w = (Returned hits, w) ->
  mapHits advancedHit hits w = (Returned list, w) ->
  formatAdvanced response w
  = (Returned (ok (JObj [("total", JObj [("value", totalValueOf hits);
                                         ("relation", relationOf hits)]);
                         ("hits", list);
                         ("aggregations",
                          jsOr (jsOr (optMember (member response "body") "aggregations")
                                     (member response "aggregations"))
                               (JObj []))])), w).
Proof. intros H1 H2. unfold formatAdvanced. run. by rewrite H1, H2. Qed.

(** C8 (as the code has it): the formatter takes the hits payload from the
    nested shape [response.body.hits] when that is there and from the
    unnested shape [response.hits] otherwise; both replies carry that
    payload's total and relation and its mapped hit list.  A payload
    without a hit list gives an empty list, a payload without a total gives
    total zero with relation [eq], an engine reply with neither shape gives
    an empty list with relation [eq], and a relation reported by the
    engine is the one in the reply. *)
Theorem formatter_resilience {W : Type} (response : Props) (w : W) :
  let nested := optMember (prop response "body") "hits" in
  let top := prop response "hits" in
  let hits :=
    if truthy nested then nested
    else jsOr top (JObj [("total", JObj [("value", JNum 0)]); ("hits", JArr [])]) in
  rawHits (JObj response) w = (Returned hits, w)
  /\ (forall list, mapHits searchHit hits w = (Returned list, w) ->
        exists reply, formatSearch (JObj response) w = (Returned reply, w)
                      /\ status reply = 200
                      /\ member (json reply) "hits" = list
                      /\ member (member (json reply) "total") "value" = totalValueOf hits
                      /\ member (member (json reply) "total") "relation" = relationOf hits)
  /\ (forall list, mapHits advancedHit hits w = (Returned list, w) ->
        exists reply, formatAdvanced (JObj response) w = (Returned reply, w)
                      /\ status reply = 200
                      /\ member (json reply) "hits" = list
                      /\ member (member (json reply) "total") "value" = totalValueOf hits
                      /\ member (member (json reply) "total") "relation" = relationOf hits)
  /\ (nullish (member hits "hits") = true ->
        mapHits searchHit hits w = (Returned (JArr []), w)
        /\ mapHits advancedHit hits w = (Returned (JArr []), w))
  /\ (nullish (member hits "total") = true ->
        totalValueOf hits = JNum 0 /\ relationOf hits = JStr "eq")
  /\ (truthy nested = false -> truthy top = false ->
        mapHits searchHit hits w = (Returned (JArr []), w)
        /\ mapHits advancedHit hits w = (Returned (JArr []), w)
        /\ relationOf hits = JStr "eq")
  /\ (truthy (optMember (member hits "total") "relation") = true ->
        relationOf hits = optMember (member hits "total") "relation").
Proof.
  intros nested top hits.
  assert (Hraw : rawHits (JObj response) w = (Returned hits, w)).
  { unfold rawHits, get. run. cbn [nullish member]. fold nested. subst hits.
    destruct (truthy nested); reflexivity. }
  split; [exact Hraw|]. split; [|split; [|split; [|split; [|split]]]].
  - intros list Hl. eexists. split; [apply (formatSearch_reply _ hits list); assumption|].
    repeat split.
  - intros list Hl. eexists. split; [apply (formatAdvanced_reply _ hits list); assumption|].
    repeat split.
  - intros Hn. unfold mapHits. rewrite Hn. split; reflexivity.
  - intros Hn. unfold totalValueOf, relationOf, optMember. rewrite Hn.
    destruct (member hits "total"); try discriminate; split; reflexivity.
  - intros Hn Ht. subst hits. rewrite Hn. unfold jsOr. rewrite Ht.
    repeat split; reflexivity.
  - intros Hr. unfold relationOf, jsOr. by rewrite Hr.
Qed.

Lemma formatter_resilience_witness :
  relationOf (JObj [("total", JObj [("value", JNum 10000); ("relation", JStr "gte")]);
                    ("hits", JArr [])])
  = JStr "gte".
Proof.
  exact (proj2 (proj2 (proj2 (proj2 (proj2 (proj2
           (formatter_resilience
              [("hits", JObj [("total", JObj [("value", JNum 10000); ("relation", JStr "gte")]);
                              ("hits", JArr [])])] tt))))))
           eq_refl).
Defined.

(** C8, the claim as worded, fails: when the engine's reply has both
    shapes, the reply is built from the nested one; the unnested shape is
    not the one tried first. *)
Lemma formatSearch_prefers_nested :
  truthy (member Samples.bothShapes "hits") = true
  /\ formatSearch Samples.bothShapes tt
     = (Returned (ok (JObj [("total", JObj [("value", JNum 1); ("relation", JStr "eq")]);
                            ("hits", JArr [JObj [("id", JStr "66f0a1"); ("score", JNum 2);
                                                 ("source", JObj [("SITE", JStr "site-1")]);
                                                 ("highlight", JObj [])]])])), tt)
  /\ member (member (member Samples.bothShapes "hits") "total") "relation" = JStr "gte".
Proof. split; [reflexivity | split; reflexivity]. Qed.

(** The total of a reply built from the fallback payload, or from a payload
    whose total has the value zero: [hits.total?.value] is zero, hence
    falsy, and the [||] chain moves on to [hits.total], an object. *)
Example formatSearch_zero_total_is_an_object :
  formatSearch (JObj []) tt
  = (Returned (ok (JObj [("total", JObj [("value", JObj [("value", JNum 0)]);
                                         ("relation", JStr "eq")]);
                         ("hits", JArr [])])), tt).
Proof. reflexivity. Qed.

(** ** Change propagator *)

(** The handler's [try]/[catch] takes in every throw: applying an event
    returns normally, for every client and every event. *)
Lemma handleChangeEvent_returns {S : Type} (change : ChangeEvent) (esClient : EsClient S)
    (indexName : string) (s : S) :
  fst (handleChangeEvent change esClient indexName s) = Returned tt.
Proof.
  unfold handleChangeEvent, get. run.
  repeat match goal with
         | |- context [if ?b then _ else _] => destruct b
         | |- context [match ?m with (_, _) => _ end] => destruct m as [[?|?] ?]
         end; cbn;
    repeat match goal with u : unit |- _ => destruct u end; reflexivity.
Qed.

(** Reading [documentKey._id] when the key reaches the engine as [k]. *)
Lemma documentKey_id {W} (key : JsVal) (k : string) :
  wireId (optMember key "_id") = Some k ->
  @get W key "_id" = ret (member key "_id") /\ wireId (member key "_id") = Some k.
Proof.
  unfold optMember, get. destruct (nullish key); [discriminate | by split].
Qed.

(** What goes through the instrumented client is logged with its
    arguments. *)
Lemma logged_run {S A} (c : Call) (m : M S A) (s : S) (log : list Call) :
  logged c m (s, log) = (fst (m s), (snd (m s), (log ++ [c])%list)).
Proof. unfold logged. cbn. by destruct (m s). Qed.

(** C7: a delete event for an identifier with no index document returns
    normally and leaves the index as it was; the engine's not-found answer
    does not reach the caller, and the events after it are applied as if
    the delete had not been there. *)
Theorem delete_of_missing_is_swallowed (accepts : JsVal -> bool)
    (answer : SearchRequest -> gmap string JsVal -> Exc JsVal)
    (indexName : string) (change : ChangeEvent) (k : string) (w : Index)
    (later : list ChangeEvent) :
  operationType change = "delete" ->
  wireId (optMember (documentKey change) "_id") = Some k ->
  w !! k = None ->
  delete (elastic accepts answer) indexName (member (documentKey change) "_id") w
    = (Thrown (notFound "not_found"), w)
  /\ handleChangeEvent change (elastic accepts answer) indexName w = (Returned tt, w)
  /\ applyChanges (change :: later) (elastic accepts answer) indexName w
     = applyChanges later (elastic accepts answer) indexName w.
Proof.
  intros Hop Hid Hmiss. destruct (documentKey_id (W := Index) _ _ Hid) as [Hget Hwire].
  assert (Hdel : delete (elastic accepts answer) indexName (member (documentKey change) "_id") w
                 = (Thrown (notFound "not_found"), w)).
  { cbn. unfold ref_delete. by rewrite Hwire, Hmiss. }
  assert (Hone : handleChangeEvent change (elastic accepts answer) indexName w = (Returned tt, w)).
  { unfold handleChangeEvent. rewrite Hop, Hget. cbn [String.eqb Ascii.eqb Bool.eqb].
    run. by rewrite Hdel. }
  split; [exact Hdel | split; [exact Hone|]].
  cbn [applyChanges]. run. by rewrite Hone.
Qed.

Lemma delete_of_missing_is_swallowed_witness :
  handleChangeEvent (mkChange "delete" (JObj [("_id", JObjectId "66f0a9")]) JUndefined)
    (elastic Samples.acceptAll Samples.noHits) "subnet_search"
    {["66f0a1" := JObj Samples.subnetC]}
  = (Returned tt, {["66f0a1" := JObj Samples.subnetC]}).
Proof.
  exact (proj1 (proj2 (delete_of_missing_is_swallowed Samples.acceptAll Samples.noHits
                  "subnet_search"
                  (mkChange "delete" (JObj [("_id", JObjectId "66f0a9")]) JUndefined)
                  "66f0a9" {["66f0a1" := JObj Samples.subnetC]} []
                  eq_refl eq_refl eq_refl))).
Defined.

(** C6 (as the code has it): an update event for an identifier with no
    index document creates none.  The handler makes one [update] call
    whose body is [{ doc: fullDocument }], with neither [doc_as_upsert]
    nor [upsert]; the engine turns it down, the handler takes the failure
    in, and the index is as it was. *)
Theorem update_of_missing_creates_nothing {S : Type} (esClient : EsClient S) (s : S)
    (log : list Call) (accepts : JsVal -> bool)
    (answer : SearchRequest -> gmap string JsVal -> Exc JsVal)
    (indexName : string) (change : ChangeEvent) (k : string) (w : Index) :
  operationType change = "update" ->
  wireId (optMember (documentKey change) "_id") = Some k ->
  w !! k = None ->
  snd (snd (handleChangeEvent change (spy esClient) indexName (s, log)))
    = (log ++ [CallUpdate indexName (member (documentKey change) "_id")
                 (JObj [("doc", fullDocument change)])])%list
  /\ handleChangeEvent change (elastic accepts answer) indexName w = (Returned tt, w)
  /\ snd (handleChangeEvent change (elastic accepts answer) indexName w) !! k = None.
Proof.
  intros Hop Hid Hmiss.
  destruct (documentKey_id (W := Index) _ _ Hid) as [Hget Hwire].
  destruct (documentKey_id (W := S * list Call) _ _ Hid) as [Hget' _].
  assert (Hone : handleChangeEvent change (elastic accepts answer) indexName w = (Returned tt, w)).
  { unfold handleChangeEvent. rewrite Hop, Hget. cbn [String.eqb Ascii.eqb Bool.eqb].
    run. cbn [update elastic]. unfold ref_update. rewrite Hwire, Hmiss.
    cbn [member prop String.eqb Ascii.eqb Bool.eqb truthy nullish].
    destruct (fullDocument change); reflexivity. }
  split; [|split; [exact Hone | by rewrite Hone]].
  unfold handleChangeEvent. rewrite Hop, Hget'. cbn [String.eqb Ascii.eqb Bool.eqb].
  run. cbn [update spy]. rewrite logged_run.
  by destruct (update esClient _ _ _ s) as [[?|?] ?].
Qed.

Lemma update_of_missing_creates_nothing_witness :
  handleChangeEvent (mkChange "update" (JObj [("_id", JObjectId "66f0a3")]) (JObj Samples.subnetC))
    (elastic Samples.acceptAll Samples.noHits) "subnet_search" ∅
  = (Returned tt, ∅).
Proof.
  exact (proj1 (proj2 (update_of_missing_creates_nothing
                  (elastic Samples.acceptAll Samples.noHits) ∅ [] Samples.acceptAll
                  Samples.noHits "subnet_search"
                  (mkChange "update" (JObj [("_id", JObjectId "66f0a3")]) (JObj Samples.subnetC))
                  "66f0a3" ∅ eq_refl eq_refl eq_refl))).
Defined.

(** C6, the claim as worded, fails: after an update event on an empty
    index there is no document under the record's identifier, whereas the
    insert event for the same record stores one. *)
Lemma update_is_not_an_upsert :
  snd (handleChangeEvent
         (mkChange "update" (JObj [("_id", JObjectId "66f0a3")]) (JObj Samples.subnetC))
         (elastic Samples.acceptAll Samples.noHits) "subnet_search" ∅) !! "66f0a3" = None
  /\ snd (handleChangeEvent
            (mkChange "insert" (JObj [("_id", JObjectId "66f0a3")]) (JObj Samples.subnetC))
            (elastic Samples.acceptAll Samples.noHits) "subnet_search" ∅) !! "66f0a3"
     = Some (JObj Samples.subnetC).
Proof. split; reflexivity. Qed.

(** ** Bulk reconciler *)

Import Reconcile.

Lemma bulkLines_run {S : Type} (indexName : string) (doc : Props) (s : S) :
  nullish (prop doc "_id") = false ->
  bulkLines indexName doc s = (Returned (linesOf indexName doc), s).
Proof. intros Hid. unfold bulkLines, toString. run. by rewrite Hid. Qed.

Lemma flatMapM_bulkLines {S : Type} (indexName : string) (documents : list Props) (s : S) :
  Forall (fun doc => nullish (prop doc "_id") = false) documents ->
  flatMapM (bulkLines indexName) documents s
  = (Returned (flat_map (linesOf indexName) documents), s).
Proof.
  induction 1 as [|doc documents Hid _ IH]; [reflexivity|].
  cbn [flatMapM flat_map]. run. rewrite bulkLines_run, IH by exact Hid. reflexivity.
Qed.

Lemma bulkStep_route accepts indexName doc d :
  bulkStep accepts (JObj [("index", metaOf indexName doc)]) (sourceOf doc) d
  = (itemOf accepts indexName doc,
     if accepts (sourceOf doc) then <[idOf doc := sourceOf doc]> d else d).
Proof.
  unfold bulkStep, itemOf, failureOf, metaOf. cbn.
  destruct (accepts (sourceOf doc)); reflexivity.
Qed.

Lemma bulkItems_route accepts indexName documents d :
  bulkItems accepts (flat_map (linesOf indexName) documents) d
  = (List.map (itemOf accepts indexName) documents, written accepts documents d).
Proof.
  revert d. induction documents as [|doc documents IH]; intros d; [reflexivity|].
  cbn [flat_map linesOf app bulkItems]. rewrite bulkStep_route, IH. reflexivity.
Qed.

Lemma itemFailed_itemOf accepts indexName doc :
  itemFailed (itemOf accepts indexName doc) = rejected accepts doc.
Proof. unfold itemOf, rejected. destruct (accepts (sourceOf doc)); reflexivity. Qed.

Lemma existsb_items accepts indexName documents :
  existsb itemFailed (List.map (itemOf accepts indexName) documents)
  = existsb (rejected accepts) documents.
Proof.
  induction documents as [|doc documents IH]; [reflexivity|].
  cbn [List.map existsb]. by rewrite itemFailed_itemOf, IH.
Qed.

Lemma failed_itemOf {S : Type} accepts indexName doc (s : S) :
  failed (itemOf accepts indexName doc) s
  = (Returned (optMember (member (itemOf accepts indexName doc) "index") "error"), s).
Proof. unfold itemOf. destruct (accepts (sourceOf doc)); reflexivity. Qed.

Lemma filterM_failed {S : Type} accepts indexName documents (s : S) :
  filterM failed (List.map (itemOf accepts indexName) documents) s
  = (Returned (List.map (failureOf indexName) (List.filter (rejected accepts) documents)), s).
Proof.
  induction documents as [|doc documents IH]; [reflexivity|].
  cbn [List.map filterM List.filter]. run. rewrite failed_itemOf, IH.
  fold (itemFailed (itemOf accepts indexName doc)). rewrite itemFailed_itemOf.
  unfold rejected, itemOf. destruct (accepts (sourceOf doc)); reflexivity.
Qed.

Lemma written_cons accepts doc documents d :
  written accepts (doc :: documents) d
  = written accepts documents
      (if accepts (sourceOf doc) then <[idOf doc := sourceOf doc]> d else d).
Proof. reflexivity. Qed.

Lemma written_other accepts documents d k :
  ~ In k (List.map idOf documents) -> written accepts documents d !! k = d !! k.
Proof.
  revert d. induction documents as [|doc documents IH]; intros d Hk; [reflexivity|].
  cbn [List.map In] in Hk. rewrite written_cons, IH by tauto.
  destruct (accepts (sourceOf doc)); [|reflexivity].
  apply lookup_insert_ne. intros E. apply Hk. by left.
Qed.

Lemma written_accepted accepts documents d :
  List.NoDup (List.map idOf documents) ->
  Forall (fun doc => accepts (sourceOf doc) = true ->
                     written accepts documents d !! idOf doc = Some (sourceOf doc))
    documents.
Proof.
  revert d. induction documents as [|doc documents IH]; intros d Hnd; [constructor|].
  cbn [List.map] in Hnd. inversion Hnd as [|? ? Hnot Hnd']; subst.
  constructor.
  - intros Hacc. rewrite written_cons, Hacc, written_other by exact Hnot.
    apply lookup_insert_eq.
  - rewrite written_cons. apply IH, Hnd'.
Qed.

Lemma existsb_filter_nonempty {A} (p : A -> bool) (l : list A) :
  existsb p l = true -> List.filter p l <> [].
Proof.
  induction l as [|x l IH]; cbn; [discriminate|].
  destruct (p x); [discriminate | exact IH].
Qed.

(** [item.index && item.index.error] on an item that is an object or any
    other value with properties: the test of the filter is the truthiness
    of [item.index?.error]. *)
Lemma failed_run {S : Type} (item : JsVal) (s : S) :
  nullish item = false ->
  exists v, failed item s = (Returned v, s) /\ truthy v = itemFailed item.
Proof.
  intros Hitem. unfold failed, get, itemFailed, optMember. run. rewrite Hitem.
  destruct (member item "index") as [| |[|]|n| |text|hex|l|ps] eqn:E;
    try (eexists; split; reflexivity).
  - cbn [truthy]. destruct (negb (n =? 0)) eqn:En; eexists; (split; [reflexivity|]);
      [reflexivity | cbn; exact En].
  - cbn [truthy]. destruct (negb (String.eqb text "")) eqn:En; eexists;
      (split; [reflexivity|]); [reflexivity | cbn; exact En].
Qed.

Lemma filterM_failed_items {S : Type} (items : list JsVal) (s : S) :
  Forall (fun item => nullish item = false) items ->
  filterM failed items s = (Returned (List.filter itemFailed items), s).
Proof.
  induction 1 as [|item items Hitem _ IH]; [reflexivity|].
  cbn [filterM List.filter]. run.
  destruct (failed_run item s Hitem) as [v [-> Hv]]. rewrite IH, Hv. reflexivity.
Qed.

(** What the sync route answers once the bulk reply reports errors at its
    top level. *)
Lemma bulkRoute_errors {S : Type} (env : Process) (mongoCount : Exc Z)
    (documents : list Props) (esClient : EsClient S) (s s' : S) (response : JsVal)
    (items : list JsVal) :
  documents <> [] ->
  Forall (fun doc => nullish (prop doc "_id") = false) documents ->
  bulk esClient true (flat_map (linesOf (indexNameOf env)) documents) s
  = (Returned response, s') ->
  truthy (member response "errors") = true ->
  member response "items" = JArr items ->
  Forall (fun item => nullish item = false) items ->
  bulkRoute env (mkCollection (Returned documents) mongoCount) esClient s
  = (Returned (mkResponse 500
                 (JObj [("success", JBool false);
                        ("error", JStr "Bulk sync completed with errors");
                        ("documentsProcessed", JNum (Z.of_nat (List.length documents)));
                        ("errors", JArr (List.filter itemFailed items))])), s').
Proof.
  intros Hne Hids Hbulk Herrors Hitems Hobjects.
  assert (Hresponse : nullish response = false) by (by destruct response).
  unfold bulkRoute. run. cbn [findAll].
  destruct documents as [|doc documents]; [done|].
  replace (Z.of_nat (List.length (doc :: documents)) =? 0) with false
    by (symmetry; apply Z.eqb_neq; cbn [List.length]; lia).
  rewrite flatMapM_bulkLines by exact Hids. rewrite Hbulk.
  unfold get. run. rewrite Hresponse, Herrors, Hitems.
  unfold filterItems. rewrite filterM_failed_items by exact Hobjects. reflexivity.
Qed.

(** C1 (as the code has it): when the bulk reply reports errors at its
    top level ([errors] truthy, [items] the array of per-document
    results), the sync route answers 500 with [success: false] and the
    error text [Bulk sync completed with errors]; the reply still carries
    [documentsProcessed] equal to the number of records read and, under
    [errors], exactly the items that carry an error.  That is the reply of
    the reference engine whenever it turns down some document of the
    batch: there the list holds the items of exactly the rejected
    documents, it is not empty, and every accepted document is in the
    index under its identifier.  The service-level reconciler returns the
    number of records read and no list of failures. *)
Theorem bulkRoute_partial_failure {S : Type} (env : Process) (mongoCount : Exc Z)
    (documents : list Props) :
  documents <> [] ->
  Forall (fun doc => nullish (prop doc "_id") = false) documents ->
  (forall (esClient : EsClient S) (s s' : S) (response : JsVal) (items : list JsVal),
     bulk esClient true (flat_map (linesOf (indexNameOf env)) documents) s
     = (Returned response, s') ->
     truthy (member response "errors") = true ->
     member response "items" = JArr items ->
     Forall (fun item => nullish item = false) items ->
     bulkRoute env (mkCollection (Returned documents) mongoCount) esClient s
     = (Returned (mkResponse 500
                    (JObj [("success", JBool false);
                           ("error", JStr "Bulk sync completed with errors");
                           ("documentsProcessed", JNum (Z.of_nat (List.length documents)));
                           ("errors", JArr (List.filter itemFailed items))])), s'))
  /\ (forall (accepts : JsVal -> bool)
             (answer : SearchRequest -> gmap string JsVal -> Exc JsVal) (w : Index),
       List.NoDup (List.map idOf documents) ->
       existsb (rejected accepts) documents = true ->
       exists reply w',
         bulkRoute env (mkCollection (Returned documents) mongoCount) (elastic accepts answer) w
         = (Returned reply, w')
         /\ status reply = 500
         /\ member (json reply) "success" = JBool false
         /\ member (json reply) "error" = JStr "Bulk sync completed with errors"
         /\ member (json reply) "documentsProcessed" = JNum (Z.of_nat (List.length documents))
         /\ member (json reply) "errors"
            = JArr (List.map (failureOf (indexNameOf env))
                      (List.filter (rejected accepts) documents))
         /\ List.filter (rejected accepts) documents <> []
         /\ Forall (fun doc => accepts (sourceOf doc) = true ->
                               w' !! idOf doc = Some (sourceOf doc)) documents)
  /\ (forall (accepts : JsVal -> bool)
             (answer : SearchRequest -> gmap string JsVal -> Exc JsVal) (w : Index),
       exists w',
         bulkSyncToElasticsearch env (mkCollection (Returned documents) mongoCount)
           (elastic accepts answer) w
         = (Returned (Z.of_nat (List.length documents)), w')).
Proof.
  intros Hne Hids. split; [|split].
  - intros esClient s s' response items. by apply bulkRoute_errors.
  - intros accepts answer w Hnd Hrej.
    exists (mkResponse 500
              (JObj [("success", JBool false);
                     ("error", JStr "Bulk sync completed with errors");
                     ("documentsProcessed", JNum (Z.of_nat (List.length documents)));
                     ("errors", JArr (List.map (failureOf (indexNameOf env))
                                        (List.filter (rejected accepts) documents)))])),
      (written accepts documents w).
    split; [|repeat split; [by apply existsb_filter_nonempty | by apply written_accepted]].
    unfold bulkRoute. run. cbn [findAll].
    destruct documents as [|doc documents]; [done|].
    replace (Z.of_nat (List.length (doc :: documents)) =? 0) with false
      by (symmetry; apply Z.eqb_neq; cbn [List.length]; lia).
    rewrite flatMapM_bulkLines by exact Hids.
    cbn [bulk elastic]. unfold ref_bulk. rewrite bulkItems_route, existsb_items, Hrej.
    unfold get. run. cbn [nullish member prop String.eqb Ascii.eqb Bool.eqb truthy].
    unfold filterItems. rewrite filterM_failed. reflexivity.
  - intros accepts answer w. unfold bulkSyncToElasticsearch. run. cbn [findAll].
    destruct documents as [|doc documents]; [done|].
    replace (0 <? Z.of_nat (List.length (doc :: documents))) with true
      by (symmetry; apply Z.ltb_lt; cbn [List.length]; lia).
    cbn [bulk elastic]. unfold ref_bulk.
    destruct (bulkItems accepts _ w) as [items d]. eexists. reflexivity.
Qed.

Lemma bulkRoute_partial_failure_witness :
  bulkRoute Samples.production
    (mkCollection (Returned [Samples.subnetA; Samples.subnetB; Samples.subnetC]) (Returned 3))
    (elastic Samples.ipMapping Samples.noHits) ∅
  = (Returned (mkResponse 500
                 (JObj [("success", JBool false);
                        ("error", JStr "Bulk sync completed with errors");
                        ("documentsProcessed", JNum 3);
                        ("errors", JArr [failureOf "subnet_search" Samples.subnetB])])),
     written Samples.ipMapping [Samples.subnetA; Samples.subnetB; Samples.subnetC] ∅)
  /\ exists reply w',
    bulkRoute Samples.production
      (mkCollection (Returned [Samples.subnetA; Samples.subnetB; Samples.subnetC]) (Returned 3))
      (elastic Samples.ipMapping Samples.noHits) ∅
    = (Returned reply, w')
    /\ status reply = 500
    /\ member (json reply) "success" = JBool false
    /\ member (json reply) "error" = JStr "Bulk sync completed with errors"
    /\ member (json reply) "documentsProcessed" = JNum 3
    /\ member (json reply) "errors" = JArr [failureOf "subnet_search" Samples.subnetB]
    /\ List.filter (rejected Samples.ipMapping)
         [Samples.subnetA; Samples.subnetB; Samples.subnetC] <> []
    /\ Forall (fun doc => Samples.ipMapping (sourceOf doc) = true ->
                          w' !! idOf doc = Some (sourceOf doc))
         [Samples.subnetA; Samples.subnetB; Samples.subnetC].
Proof.
  assert (Hids : Forall (fun doc => nullish (prop doc "_id") = false)
                   [Samples.subnetA; Samples.subnetB; Samples.subnetC])
    by (repeat constructor).
  pose (thm := bulkRoute_partial_failure (S := Index) Samples.production (Returned 3)
                 [Samples.subnetA; Samples.subnetB; Samples.subnetC]
                 ltac:(discriminate) Hids).
  split.
  - refine (proj1 thm (elastic Samples.ipMapping Samples.noHits) ∅ _ _
              (List.map (itemOf Samples.ipMapping "subnet_search")
                 [Samples.subnetA; Samples.subnetB; Samples.subnetC])
              eq_refl eq_refl eq_refl _).
    repeat constructor.
  - refine (proj1 (proj2 thm) Samples.ipMapping Samples.noHits ∅ _ eq_refl).
    constructor; [cbn; intros [H|[H|[]]]; discriminate|].
    constructor; [cbn; intros [H|[]]; discriminate|].
    constructor; [intros []|]. constructor.
Defined.

(** C1, the claim as worded, fails: a batch of three records of which one
    is rejected is answered 500 with [success: false], not as a success;
    the two accepted records are in the index. *)
Lemma bulkRoute_reports_failure :
  exists reply w',
    bulkRoute Samples.production
      (mkCollection (Returned [Samples.subnetA; Samples.subnetB; Samples.subnetC]) (Returned 3))
      (elastic Samples.ipMapping Samples.noHits) ∅
    = (Returned reply, w')
    /\ status reply = 500
    /\ member (json reply) "success" = JBool false
    /\ member (json reply) "success" <> JBool true
    /\ w' !! "66f0a1" = Some (sourceOf Samples.subnetA)
    /\ w' !! "66f0a2" = None
    /\ w' !! "66f0a3" = Some (sourceOf Samples.subnetC).
Proof.
  eexists _, _. split; [vm_compute; reflexivity|].
  repeat split; try reflexivity. discriminate.
Qed.

(** ** Projection on the propagation and reconcile paths *)

Lemma storeFree_failed {W} item : storeFree (@failed W item).
Proof.
  unfold failed. apply storeFree_bind; [apply storeFree_get|].
  intros ix. destruct (truthy ix); apply storeFree_ret.
Qed.

Lemma storeFree_filterM {W A} (p : A -> M W JsVal) (l : list A) :
  (forall a, storeFree (p a)) -> storeFree (filterM p l).
Proof.
  intros Hp. induction l as [|x l IH]; cbn; [apply storeFree_ret|].
  apply storeFree_bind; [apply Hp|]. intros keep.
  apply storeFree_bind; [apply IH|]. intros ys. apply storeFree_ret.
Qed.

Lemma storeFree_filterItems {W} items : storeFree (@filterItems W items).
Proof.
  unfold filterItems. destruct items; try apply storeFree_throw.
  apply storeFree_filterM. intros a. apply storeFree_failed.
Qed.

(** The one call the sync route makes for a batch. *)
Lemma bulkRoute_call {S : Type} (env : Process) (mongoCount : Exc Z) (esClient : EsClient S)
    (s : S) (log : list Call) (documents : list Props) :
  documents <> [] ->
  Forall (fun doc => nullish (prop doc "_id") = false) documents ->
  snd (snd (bulkRoute env (mkCollection (Returned documents) mongoCount) (spy esClient)
              (s, log)))
  = (log ++ [CallBulk true (flat_map (linesOf (indexNameOf env)) documents)])%list.
Proof.
  intros Hne Hids. unfold bulkRoute. run. cbn [findAll].
  destruct documents as [|doc documents]; [done|].
  replace (Z.of_nat (List.length (doc :: documents)) =? 0) with false
    by (symmetry; apply Z.eqb_neq; cbn [List.length]; lia).
  rewrite flatMapM_bulkLines by exact Hids.
  cbn [bulk spy]. rewrite logged_run.
  destruct (bulk esClient true _ s) as [[response|e] s']; cbn [fst snd]; [|reflexivity].
  unfold get. run. destruct (nullish response); [reflexivity|].
  destruct (truthy (member response "errors")); [|reflexivity].
  match goal with |- context [filterItems ?v ?w] =>
    pose proof (storeFree_filterItems v w) as H; destruct (filterItems v w) as [[l|e] w2]
  end; cbn in H; subst; reflexivity.
Qed.

(** The one call the service-level reconciler makes for a batch. *)
Lemma bulkSync_call {S : Type} (env : Process) (mongoCount : Exc Z) (esClient : EsClient S)
    (s : S) (log : list Call) (documents : list Props) :
  documents <> [] ->
  snd (snd (bulkSyncToElasticsearch env (mkCollection (Returned documents) mongoCount)
              (spy esClient) (s, log)))
  = (log ++ [CallBulk true (bulkBody (indexNameOf env) documents)])%list.
Proof.
  intros Hne. unfold bulkSyncToElasticsearch. run. cbn [findAll].
  destruct documents as [|doc documents]; [done|].
  replace (0 <? Z.of_nat (List.length (doc :: documents))) with true
    by (symmetry; apply Z.ltb_lt; cbn [List.length]; lia).
  cbn [bulk spy]. rewrite logged_run.
  destruct (bulk esClient true _ s) as [[response|e] s']; cbn [fst snd]; [|reflexivity].
  unfold get. run. destruct (nullish response); reflexivity.
Qed.

(** The one call the propagator makes for an insert event. *)
Lemma insert_call {S : Type} (indexName : string) (esClient : EsClient S) (s : S)
    (log : list Call) (key full : JsVal) :
  nullish key = false ->
  snd (snd (handleChangeEvent (mkChange "insert" key full) (spy esClient) indexName (s, log)))
  = (log ++ [CallIndex indexName (member key "_id") full])%list.
Proof.
  intros Hkey. unfold handleChangeEvent, get. run.
  cbn [operationType documentKey fullDocument String.eqb Ascii.eqb Bool.eqb].
  rewrite Hkey. cbn [index spy]. rewrite logged_run.
  by destruct (index esClient _ _ _ s) as [[?|?] ?].
Qed.

(** The lines of a bulk request, from its (action, body) pairs. *)
Lemma bulkBody_pairs (indexName : string) (documents : list Props) :
  bulkBody indexName documents
  = flat_map (fun line : JsVal * JsVal => [line.1; line.2])
      (List.map (fun doc => (JObj [("index", JObj [("_index", JStr indexName);
                                                   ("_id", prop doc "_id")])],
                             JObj doc)) documents).
Proof.
  unfold bulkBody. induction documents as [|doc documents IH]; [reflexivity|].
  cbn [flat_map List.map fst snd app]. by rewrite IH.
Qed.

Lemma linesOf_pairs (indexName : string) (documents : list Props) :
  flat_map (linesOf indexName) documents
  = flat_map (fun line : JsVal * JsVal => [line.1; line.2])
      (List.map (fun doc => (JObj [("index", metaOf indexName doc)], sourceOf doc))
         documents).
Proof.
  induction documents as [|doc documents IH]; [reflexivity|].
  cbn [flat_map List.map fst snd app linesOf]. by rewrite IH.
Qed.

Lemma Forall2_map_same {A B} (R : A -> B -> Prop) (f : A -> B) (l : list A) :
  (forall a, R a (f a)) -> Forall2 R l (List.map f l).
Proof. intros H. induction l; constructor; auto. Qed.

(** C2 (as the code has it): for every collection of records with
    identifiers, the service-level reconciler and the sync route each send
    one bulk request holding one (action, body) pair per record, in the
    order of the collection, and the propagator writes one body per insert
    event.  For every record, each of the three bodies carries, for every
    field other than [_id], the record's own value: they agree with one
    another on those fields, and none of them attaches a derived
    [suggest].  The sync route's body has no [_id].  The derived [suggest]
    is attached by the batch script's transform alone, which keeps every
    other field. *)
Theorem projections_agree_outside_id {S : Type} (env : Process) (mongoCount : Exc Z)
    (esClient : EsClient S) (s : S) (documents : list Props) :
  documents <> [] ->
  Forall (fun doc => nullish (prop doc "_id") = false) documents ->
  exists service route : list (JsVal * JsVal),
    snd (snd (bulkSyncToElasticsearch env (mkCollection (Returned documents) mongoCount)
                (spy esClient) (s, [])))
    = [CallBulk true (flat_map (fun line : JsVal * JsVal => [line.1; line.2]) service)]
    /\ snd (snd (bulkRoute env (mkCollection (Returned documents) mongoCount)
                   (spy esClient) (s, [])))
       = [CallBulk true (flat_map (fun line : JsVal * JsVal => [line.1; line.2]) route)]
    /\ Forall2 (fun doc line =>
                  member (member line.1 "index") "_id" = prop doc "_id"
                  /\ forall k, k <> "_id" -> member line.2 k = prop doc k)
         documents service
    /\ Forall2 (fun doc line =>
                  member (member line.1 "index") "_id" = JStr (toStr (prop doc "_id"))
                  /\ member line.2 "_id" = JUndefined
                  /\ forall k, k <> "_id" -> member line.2 k = prop doc k)
         documents route
    /\ Forall (fun doc =>
                 exists eventBody,
                   snd (snd (handleChangeEvent
                               (mkChange "insert" (JObj [("_id", prop doc "_id")]) (JObj doc))
                               (spy esClient) (indexNameOf env) (s, [])))
                   = [CallIndex (indexNameOf env) (prop doc "_id") eventBody]
                   /\ forall k, k <> "_id" -> member eventBody k = prop doc k)
         documents
    /\ Forall (fun doc =>
                 (forall k, k <> "suggest" ->
                    prop (transformForElasticsearch doc) k = prop doc k)
                 /\ prop (transformForElasticsearch doc) "suggest"
                    = JObj [("input", JArr (suggestInput doc));
                            ("contexts",
                             JObj [("category", JArr [JStr "subnet"; JStr "network"])])])
         documents.
Proof.
  intros Hne Hids.
  exists (List.map (fun doc => (JObj [("index", JObj [("_index", JStr (indexNameOf env));
                                                      ("_id", prop doc "_id")])],
                                JObj doc)) documents),
    (List.map (fun doc => (JObj [("index", metaOf (indexNameOf env) doc)], sourceOf doc))
       documents).
  split; [by rewrite bulkSync_call, bulkBody_pairs|].
  split; [by rewrite bulkRoute_call, linesOf_pairs|].
  split; [|split; [|split]].
  - apply Forall2_map_same. intros doc. split; [reflexivity|]. by intros k _.
  - apply Forall2_map_same. intros doc. cbn [fst snd]. split; [reflexivity|].
    unfold sourceOf. cbn [member]. split; [apply prop_withoutProp_same|].
    intros k Hk. apply prop_withoutProp_other. congruence.
  - apply Forall_forall. intros doc Hin. exists (JObj doc). split; [|by intros k _].
    by rewrite insert_call.
  - apply Forall_forall. intros doc _. unfold transformForElasticsearch. split.
    + intros k Hk. apply prop_setProp_other. congruence.
    + apply prop_setProp_same.
Qed.

Lemma projections_agree_outside_id_witness :
  exists service route : list (JsVal * JsVal),
    snd (snd (bulkSyncToElasticsearch Samples.production
                (mkCollection (Returned [Samples.subnetA; Samples.subnetB]) (Returned 2))
                (spy (elastic Samples.acceptAll Samples.noHits)) (∅, [])))
    = [CallBulk true (flat_map (fun line : JsVal * JsVal => [line.1; line.2]) service)]
    /\ snd (snd (bulkRoute Samples.production
                   (mkCollection (Returned [Samples.subnetA; Samples.subnetB]) (Returned 2))
                   (spy (elastic Samples.acceptAll Samples.noHits)) (∅, [])))
       = [CallBulk true (flat_map (fun line : JsVal * JsVal => [line.1; line.2]) route)]
    /\ Forall2 (fun doc line =>
                  member (member line.1 "index") "_id" = prop doc "_id"
                  /\ forall k, k <> "_id" -> member line.2 k = prop doc k)
         [Samples.subnetA; Samples.subnetB] service
    /\ Forall2 (fun doc line =>
                  member (member line.1 "index") "_id" = JStr (toStr (prop doc "_id"))
                  /\ member line.2 "_id" = JUndefined
                  /\ forall k, k <> "_id" -> member line.2 k = prop doc k)
         [Samples.subnetA; Samples.subnetB] route
    /\ Forall (fun doc =>
                 exists eventBody,
                   snd (snd (handleChangeEvent
                               (mkChange "insert" (JObj [("_id", prop doc "_id")]) (JObj doc))
                               (spy (elastic Samples.acceptAll Samples.noHits))
                               "subnet_search" (∅, [])))
                   = [CallIndex "subnet_search" (prop doc "_id") eventBody]
                   /\ forall k, k <> "_id" -> member eventBody k = prop doc k)
         [Samples.subnetA; Samples.subnetB]
    /\ Forall (fun doc =>
                 (forall k, k <> "suggest" ->
                    prop (transformForElasticsearch doc) k = prop doc k)
                 /\ prop (transformForElasticsearch doc) "suggest"
                    = JObj [("input", JArr (suggestInput doc));
                            ("contexts",
                             JObj [("category", JArr [JStr "subnet"; JStr "network"])])])
         [Samples.subnetA; Samples.subnetB].
Proof.
  refine (projections_agree_outside_id Samples.production (Returned 2)
            (elastic Samples.acceptAll Samples.noHits) ∅ [Samples.subnetA; Samples.subnetB]
            ltac:(discriminate) _).
  repeat constructor.
Defined.

(** C2, the claim as worded, fails: for one and the same record the
    propagator's body and the sync route's body differ, the former still
    carrying the identifier, and neither has a [suggest] field, which the
    batch script's transform of the record does have. *)
Lemma projections_differ :
  snd (snd (handleChangeEvent
              (mkChange "insert" (JObj [("_id", JObjectId "66f0a1")]) (JObj Samples.subnetA))
              (spy (elastic Samples.acceptAll Samples.noHits)) "subnet_search" (∅, [])))
  = [CallIndex "subnet_search" (JObjectId "66f0a1") (JObj Samples.subnetA)]
  /\ snd (snd (bulkRoute Samples.production
                 (mkCollection (Returned [Samples.subnetA]) (Returned 1))
                 (spy (elastic Samples.acceptAll Samples.noHits)) (∅, [])))
     = [CallBulk true
          [JObj [("index", JObj [("_index", JStr "subnet_search"); ("_id", JStr "66f0a1")])];
           sourceOf Samples.subnetA]]
  /\ JObj Samples.subnetA <> sourceOf Samples.subnetA
  /\ member (JObj Samples.subnetA) "_id" = JObjectId "66f0a1"
  /\ member (JObj Samples.subnetA) "suggest" = JUndefined
  /\ member (sourceOf Samples.subnetA) "suggest" = JUndefined
  /\ prop (transformForElasticsearch Samples.subnetA) "suggest" <> JUndefined.
Proof.
  split; [reflexivity | split; [reflexivity | split; [discriminate|]]].
  repeat split; try reflexivity. discriminate.
Qed.

(** ** Further properties of the search controller *)

(** Once [search] has a query to send, exactly that one call is made,
    whatever the engine answers and however the formatting ends. *)
Lemma search_sends {S : Type} (env : Process) (esClient : EsClient S) (r : SearchRequest)
    (s : S) (log : list Call) (onError : JsError -> M (S * list Call) Response) :
  (forall e, storeFree (onError e)) ->
  snd (snd (tryCatch (response ← Engine.search (spy esClient) r; formatSearch response)
              onError (s, log)))
  = (log ++ [CallSearch r])%list.
Proof.
  intros Hfree. run. rewrite spy_search.
  destruct (Engine.search esClient r s) as [[response|e] s']; cbn [fst snd].
  - destruct (formatSearch_outcome response (s', (log ++ [CallSearch r])%list))
      as [[reply [-> _]]|[e ->]]; [reflexivity|].
    by rewrite (Hfree e (s', (log ++ [CallSearch r])%list)).
  - by rewrite (Hfree e (s', (log ++ [CallSearch r])%list)).
Qed.

Lemma search_onError_free {W} (env : Process) (error : JsError) :
  storeFree (W := W)
    (if hasStatus error 404 then
       ret (mkResponse 404
              (JObj [("error", JStr "Search index not found");
                     ("message", JStr "Please run bulk sync first to create the index")]))
     else
       ret (mkResponse 500
              (JObj [("error", JStr "Search failed");
                     ("message",
                      JStr (if Env.development env then message error
                            else "Internal server error"))]))).
Proof. destruct (hasStatus error 404); apply storeFree_ret. Qed.

(** X1: the wildcard shortcut.  A search whose [q] is [*] sends a
    match-all query, whatever the field, fuzzy and fuzziness parameters
    are; an unknown field is not even looked at. *)
Theorem search_wildcard_is_match_all {S : Type} (env : Process) (query : Req.Params)
    (esClient : EsClient S) (s : S) (log : list Call) :
  Req.q query = Some "*" ->
  snd (snd (search env query (spy esClient) (s, log)))
  = (log ++ [CallSearch (mkSearch (indexNameOf env) MatchAll
                           (Req.parseIntOr (Req.size query) 10)
                           (Req.parseIntOr (Req.from query) 0)
                           (buildSortConfig (default "_score" (Req.sortBy query))
                                            (default "desc" (Req.sortOrder query)))
                           Highlight)])%list.
Proof.
  intros Hq.
  pose proof (search_sends env esClient
                (mkSearch (indexNameOf env) MatchAll
                   (Req.parseIntOr (Req.size query) 10) (Req.parseIntOr (Req.from query) 0)
                   (buildSortConfig (default "_score" (Req.sortBy query))
                      (default "desc" (Req.sortOrder query))) Highlight)
                s log _ (search_onError_free env)) as H.
  unfold search, Req.given. rewrite Hq. cbn [default from_option id negb String.eqb Ascii.eqb
                                               Bool.eqb].
  run. exact H.
Qed.

Lemma search_wildcard_is_match_all_witness :
  snd (snd (search Samples.production
              (Samples.withField "NOPE" (Samples.withQ "*" Samples.noParams))
              (spy (elastic Samples.acceptAll Samples.noHits)) (∅, [])))
  = [CallSearch (mkSearch "subnet_search" MatchAll (JNum 10) (JNum 0)
                   [mkSort "_score" "desc"] Highlight)].
Proof.
  exact (search_wildcard_is_match_all Samples.production
           (Samples.withField "NOPE" (Samples.withQ "*" Samples.noParams))
           (elastic Samples.acceptAll Samples.noHits) ∅ [] eq_refl).
Defined.

(** X2: a request whose [q] is absent, empty or made of white space only
    is answered 400 by the main route's middleware, and the engine is not
    called. *)
Theorem searchRoute_rejects_blank_q {S : Type} (env : Process) (query : Req.Params)
    (esClient : EsClient S) (s : S) (log : list Call) :
  Req.given (Req.q query) = false \/ trim (default "" (Req.q query)) = "" ->
  searchRoute env query (spy esClient) (s, log)
  = (Returned (mkResponse 400
                 (JObj [("error",
                         JStr ("Query parameter " +:+ dquote +:+ "q" +:+ dquote
                                 +:+ " is required and cannot be empty"))])),
     (s, log)).
Proof.
  intros H. unfold searchRoute, Validation.validateSearch, Validation.reject.
  replace (negb (Req.given (Req.q query))
           || (Z.of_nat (String.length (trim (default "" (Req.q query)))) =? 0)) with true;
    [reflexivity|].
  symmetry. destruct H as [-> | ->]; [reflexivity | apply orb_true_r].
Qed.

Lemma searchRoute_rejects_blank_q_witness :
  searchRoute Samples.production (Samples.withQ "   " Samples.noParams)
    (spy (elastic Samples.acceptAll Samples.noHits)) (∅, [])
  = (Returned (mkResponse 400
                 (JObj [("error",
                         JStr ("Query parameter " +:+ dquote +:+ "q" +:+ dquote
                                 +:+ " is required and cannot be empty"))])),
     (∅, [])).
Proof.
  exact (searchRoute_rejects_blank_q Samples.production (Samples.withQ "   " Samples.noParams)
           (elastic Samples.acceptAll Samples.noHits) ∅ [] (or_intror eq_refl)).
Defined.

(** X3: how [search] answers a failing engine, for the wildcard, for a
    search over all fields and for a search scoped to a field of the
    allow-list.  A failure carrying status 404 becomes a 404 reply that
    asks for a bulk sync; any other failure becomes a 500 whose message is
    the error's own text in development mode only. *)
Theorem search_engine_failure {S : Type} (env : Process) (query : Req.Params)
    (esClient : EsClient S) (s s' : S) (q : string) (e : JsError) :
  Req.q query = Some q -> q <> "" ->
  q = "*" \/ Req.given (Req.field query) = false
  \/ lookupField fieldMapping (toUpperCase (default "" (Req.field query))) <> None ->
  (forall r, Engine.search esClient r s = (Thrown e, s')) ->
  search env query esClient s
  = (Returned
       (if hasStatus e 404 then
          mkResponse 404
            (JObj [("error", JStr "Search index not found");
                   ("message", JStr "Please run bulk sync first to create the index")])
        else
          mkResponse 500
            (JObj [("error", JStr "Search failed");
                   ("message", JStr (if Env.development env then message e
                                     else "Internal server error"))])), s').
Proof.
  intros Hq Hne Hcase Hfail. apply String.eqb_neq in Hne.
  unfold search, Req.given. rewrite Hq. cbn [default from_option id]. rewrite Hne. cbn [negb].
  run. destruct Hcase as [-> | [Hfield | Hknown]].
  - cbn [String.eqb Ascii.eqb Bool.eqb]. rewrite Hfail. by destruct (hasStatus e 404).
  - unfold Req.given in Hfield. rewrite Hfield.
    destruct (String.eqb q "*"); rewrite Hfail; by destruct (hasStatus e 404).
  - destruct (String.eqb q "*"); [rewrite Hfail; by destruct (hasStatus e 404)|].
    destruct (match Req.field query with
              | Some f => negb (String.eqb f "")
              | None => false
              end); [|rewrite Hfail; by destruct (hasStatus e 404)].
    unfold buildFieldSpecificQuery.
    destruct (lookupField fieldMapping (toUpperCase (default "" (Req.field query))))
      as [fieldType|]; [|done].
    destruct (String.eqb fieldType "keyword"); run; rewrite Hfail;
      by destruct (hasStatus e 404).
Qed.

Lemma search_engine_failure_witness :
  search Samples.production (Samples.withField "SITE" (Samples.withQ "east" Samples.noParams))
    (elastic Samples.acceptAll (fun _ _ => Thrown (notFound "index_not_found_exception"))) ∅
  = (Returned (mkResponse 404
                 (JObj [("error", JStr "Search index not found");
                        ("message", JStr "Please run bulk sync first to create the index")])),
     ∅).
Proof.
  refine (search_engine_failure Samples.production
            (Samples.withField "SITE" (Samples.withQ "east" Samples.noParams))
            (elastic Samples.acceptAll (fun _ _ => Thrown (notFound "index_not_found_exception")))
            ∅ ∅ "east" (notFound "index_not_found_exception")
            eq_refl _ (or_intror (or_intror _)) (fun r => eq_refl)); discriminate.
Defined.

(** ** Pagination, sort and fuzziness as they reach the engine *)

Lemma parseInt_number (s : string) : parseInt s = JNaN \/ exists n, parseInt s = JNum n.
Proof.
  unfold parseInt.
  destruct (match dropWhite (list_ascii_of_string s) with
            | "-"%char :: rest => (-1, rest)
            | "+"%char :: rest => (1, rest)
            | _ => (1, dropWhite (list_ascii_of_string s))
            end) as [sign cs].
  destruct (match cs with
            | "0"%char :: "x"%char :: rest => (16, rest)
            | "0"%char :: "X"%char :: rest => (16, rest)
            | _ => (10, cs)
            end) as [radix cs'].
  destruct (leadingDigits radix None cs'); [right; eauto | by left].
Qed.




(** A size that is a number for [isNaN] and not for [parseInt] passes the
    middleware and reaches the engine as [NaN]. *)
Example searchRoute_fractional_size :
  snd (snd (searchRoute Samples.production
              (Samples.withSize ".5" (Samples.withQ "*" Samples.noParams))
              (spy (elastic Samples.acceptAll Samples.noHits)) (∅, [])))
  = [CallSearch (mkSearch "subnet_search" MatchAll JNaN (JNum 0)
                   [mkSort "_score" "desc"] Highlight)].
Proof. reflexivity. Qed.

(** X5: the sort array is sanitised.  Whatever the request asks for, every
    key sent to the engine names a field of the allow-list and a direction
    that is [asc] or [desc], and the last key is always relevance. *)
Theorem buildSortConfig_sanitised (sortBy sortOrder : string) :
  Forall (fun key => includes validSortFields (sortField key) = true
                     /\ includes ["asc"; "desc"] (sortDir key) = true)
    (buildSortConfig sortBy sortOrder)
  /\ exists dir, last (buildSortConfig sortBy sortOrder) = Some (mkSort "_score" dir).
Proof.
  unfold buildSortConfig.
  assert (Hdir : includes ["asc"; "desc"]
                   (if includes ["asc"; "desc"] sortOrder then sortOrder else "desc") = true).
  { destruct (includes ["asc"; "desc"] sortOrder) eqn:E; [exact E | reflexivity]. }
  destruct (includes validSortFields sortBy) eqn:Efield.
  - destruct (String.eqb sortBy "_score") eqn:Escore.
    + split; [|eexists; reflexivity]. repeat constructor. exact Hdir.
    + split; [|eexists; reflexivity]. repeat constructor; [exact Efield | exact Hdir].
  - split; [|eexists; reflexivity]. repeat constructor. exact Hdir.
Qed.

(** X6: the fuzzy switch is the presence of the parameter, not its value.
    In an unscoped search the free-text clause carries the requested
    fuzziness text ([AUTO] by default) whenever [fuzzy] is a non-empty
    string, [false] included, and the number 0 when it is absent or
    empty. *)
Theorem search_fuzzy_switch {S : Type} (env : Process) (query : Req.Params)
    (esClient : EsClient S) (s : S) (log : list Call) (q : string) :
  Req.q query = Some q -> q <> "" -> q <> "*" ->
  Req.given (Req.field query) = false ->
  snd (snd (search env query (spy esClient) (s, log)))
  = (log ++ [CallSearch
               (mkSearch (indexNameOf env)
                  (buildMultiFieldQuery q (JBool (Req.given (Req.fuzzy query)))
                     (default "AUTO" (Req.fuzziness query)))
                  (Req.parseIntOr (Req.size query) 10)
                  (Req.parseIntOr (Req.from query) 0)
                  (buildSortConfig (default "_score" (Req.sortBy query))
                                   (default "desc" (Req.sortOrder query)))
                  Highlight)])%list
  /\ fuzzinessOf (JBool (Req.given (Req.fuzzy query))) (default "AUTO" (Req.fuzziness query))
     = (if Req.given (Req.fuzzy query) then FuzzText (default "AUTO" (Req.fuzziness query))
        else FuzzNum 0).
Proof.
  intros Hq Hne Hstar Hfield. split; [|reflexivity].
  apply String.eqb_neq in Hne, Hstar.
  assert (Hsame : buildMultiFieldQuery q
                    (match Req.fuzzy query with Some s0 => JStr s0 | None => JBool false end)
                    (default "AUTO" (Req.fuzziness query))
                  = buildMultiFieldQuery q (JBool (Req.given (Req.fuzzy query)))
                      (default "AUTO" (Req.fuzziness query))).
  { unfold buildMultiFieldQuery, fuzzinessOf, Req.given. by destruct (Req.fuzzy query). }
  rewrite <- Hsame.
  unfold search. unfold Req.given at 1. rewrite Hq. cbn [default from_option id].
  rewrite Hne, Hstar, Hfield. cbn [negb]. run.
  apply (search_sends env esClient _ s log _ (search_onError_free env)).
Qed.

Lemma search_fuzzy_switch_witness :
  snd (snd (search Samples.production
              (Req.mkParams (Some "east") None (Some "false") None None None None None None
                 None None None None)
              (spy (elastic Samples.acceptAll Samples.noHits)) (∅, [])))
  = [CallSearch (mkSearch "subnet_search" (buildMultiFieldQuery "east" (JBool true) "AUTO")
                   (JNum 10) (JNum 0) [mkSort "_score" "desc"] Highlight)].
Proof.
  exact (proj1 (search_fuzzy_switch Samples.production
                  (Req.mkParams (Some "east") None (Some "false") None None None None None None
                     None None None None)
                  (elastic Samples.acceptAll Samples.noHits) ∅ [] "east"
                  eq_refl ltac:(discriminate) ltac:(discriminate) eq_refl)).
Defined.

(** ** Advanced search: how the conditions compose *)

Import Batch.

(** X7: the advanced query degrades to match-all exactly when the request
    has no text and no filter: none of [q], [sites], [clusters],
    [usernames], [dateFrom], [dateTo] is given. *)
Theorem advancedQuery_match_all_iff (query : Req.Params) :
  advancedQuery query = MatchAll
  <-> Req.given (Req.q query) = false
      /\ Req.given (Req.sites query) = false
      /\ Req.given (Req.clusters query) = false
      /\ Req.given (Req.usernames query) = false
      /\ Req.given (Req.dateFrom query) = false
      /\ Req.given (Req.dateTo query) = false.
Proof.
  unfold advancedQuery, termsFilter, rangeFilter.
  destruct (Req.given (Req.q query)), (Req.given (Req.sites query)),
    (Req.given (Req.clusters query)), (Req.given (Req.usernames query)),
    (Req.given (Req.dateFrom query)), (Req.given (Req.dateTo query));
    cbn; split; intros H; try discriminate; try reflexivity;
    repeat match goal with H : _ /\ _ |- _ => destruct H end; try discriminate;
    repeat split.
Qed.

(** X8: in every other case the advanced query is a conjunction: the text,
    when given, is the only scoring clause and is never fuzzy; every
    membership list that is given is a filter on its field with the
    trimmed members of the list; and the filter part holds nothing but
    such filters and the timestamp range. *)
Theorem advancedQuery_composition (query : Req.Params) :
  advancedQuery query = MatchAll
  \/ exists must filter,
       advancedQuery query = Bool must [] filter None
       /\ must = (if Req.given (Req.q query)
                  then [buildMultiFieldQuery (default "" (Req.q query)) (JBool false) "AUTO"]
                  else [])
       /\ forallb isFilterClause filter = true
       /\ (Req.given (Req.sites query) = true ->
           In (Terms "SITE" (memberList (default "" (Req.sites query)))) filter)
       /\ (Req.given (Req.clusters query) = true ->
           In (Terms "CLUSTERID" (memberList (default "" (Req.clusters query)))) filter)
       /\ (Req.given (Req.usernames query) = true ->
           In (Terms "USERNAME" (memberList (default "" (Req.usernames query)))) filter)
       /\ (Req.given (Req.dateFrom query) || Req.given (Req.dateTo query) = true ->
           exists gte lte, In (Range "TIMESTAMP" gte lte) filter).
Proof.
  destruct (advancedQuery query) eqn:E; try (unfold advancedQuery in E;
    destruct (_ && _) in E; discriminate).
  - by left.
  - right. unfold advancedQuery in E. destruct (_ && _) in E; [discriminate|].
    injection E as <- <- <- <-. eexists _, _. split; [reflexivity|]. split; [reflexivity|].
    unfold termsFilter, rangeFilter.
    destruct (Req.given (Req.sites query)), (Req.given (Req.clusters query)),
      (Req.given (Req.usernames query)), (Req.given (Req.dateFrom query)),
      (Req.given (Req.dateTo query)); cbn;
      repeat split; intros; try discriminate; eauto 10.
Qed.

(** Two membership lists and no text: a conjunction of two filters. *)
Example advancedQuery_two_filters :
  advancedQuery (Req.mkParams None None None None None None None None (Some "a, b")
                   (Some "x") None None None)
  = Bool [] [] [Terms "SITE" ["a"; "b"]; Terms "CLUSTERID" ["x"]] None.
Proof. reflexivity. Qed.

(** ** Projection, once more *)

Lemma setProp_setProp (ps : Props) k v v' : setProp (setProp ps k v) k v' = setProp ps k v'.
Proof.
  induction ps as [|[k0 v0] ps IH]; cbn.
  - by rewrite String.eqb_refl.
  - destruct (String.eqb k0 k) eqn:E; cbn; rewrite E; [done | by rewrite IH].
Qed.

(** X9: the script's transform is idempotent: transforming a transformed
    document changes nothing, the [suggest] field being recomputed from
    the same three fields and put back in the same place. *)
Theorem transformForElasticsearch_idempotent (doc : Props) :
  transformForElasticsearch (transformForElasticsearch doc) = transformForElasticsearch doc.
Proof.
  unfold transformForElasticsearch at 1.
  assert (Hin : suggestInput (transformForElasticsearch doc) = suggestInput doc).
  { unfold suggestInput, transformForElasticsearch.
    rewrite !prop_setProp_other by discriminate. reflexivity. }
  rewrite Hin. unfold transformForElasticsearch. apply setProp_setProp.
Qed.

(** ** Reconcile: empty store, failing store, success, repetition *)

(** X10: reconciling an empty collection is a successful no-op.  The sync
    route replies 200 with [documentsProcessed = 0], the service-level
    reconciler returns 0, and neither calls the engine. *)
Theorem reconcile_empty_collection {S : Type} (env : Process) (mongoCount : Exc Z)
    (esClient : EsClient S) (s : S) (log : list Call) :
  bulkRoute env (mkCollection (Returned []) mongoCount) (spy esClient) (s, log)
  = (Returned (ok (JObj [("success", JBool true);
                         ("message", JStr "No documents found in MongoDB to sync");
                         ("documentsProcessed", JNum 0)])), (s, log))
  /\ bulkSyncToElasticsearch env (mkCollection (Returned []) mongoCount) (spy esClient) (s, log)
     = (Returned 0, (s, log)).
Proof. split; reflexivity. Qed.

(** X11: a failing read of the record store.  The sync route replies 500
    [Bulk sync failed] with the error's own message, in every environment;
    the service-level reconciler throws the same error on; neither calls
    the engine. *)
Theorem reconcile_store_failure {S : Type} (env : Process) (mongoCount : Exc Z)
    (esClient : EsClient S) (s : S) (log : list Call) (e : JsError) :
  bulkRoute env (mkCollection (Thrown e) mongoCount) (spy esClient) (s, log)
  = (Returned (mkResponse 500 (JObj [("success", JBool false);
                                      ("error", JStr "Bulk sync failed");
                                      ("message", JStr (message e))])), (s, log))
  /\ bulkSyncToElasticsearch env (mkCollection (Thrown e) mongoCount) (spy esClient) (s, log)
     = (Thrown e, (s, log)).
Proof. split; reflexivity. Qed.

(** The index a reconcile through the sync route leaves behind. *)
Lemma bulkRoute_state (accepts : JsVal -> bool)
    (answer : SearchRequest -> gmap string JsVal -> Exc JsVal)
    (env : Process) (mongoCount : Exc Z) (documents : list Props) (w : Index) :
  Forall (fun doc => nullish (prop doc "_id") = false) documents ->
  snd (bulkRoute env (mkCollection (Returned documents) mongoCount) (elastic accepts answer) w)
  = written accepts documents w.
Proof.
  intros Hids. unfold bulkRoute. run. cbn [findAll].
  destruct documents as [|doc documents]; [reflexivity|].
  replace (Z.of_nat (List.length (doc :: documents)) =? 0) with false
    by (symmetry; apply Z.eqb_neq; cbn [List.length]; lia).
  rewrite flatMapM_bulkLines by exact Hids.
  cbn [bulk elastic]. unfold ref_bulk. rewrite bulkItems_route, existsb_items.
  unfold get. run. cbn [nullish member prop String.eqb Ascii.eqb Bool.eqb truthy].
  destruct (existsb (rejected accepts) (doc :: documents)); [|reflexivity].
  unfold filterItems. rewrite filterM_failed. reflexivity.
Qed.

(** X12: a reconcile in which the engine accepts every document.  The sync
    route replies 200 with [success: true] and the number of records read,
    and afterwards every record (identifiers being distinct) has its
    source, without [_id], in the index under its identifier. *)
Theorem bulkRoute_success (accepts : JsVal -> bool)
    (answer : SearchRequest -> gmap string JsVal -> Exc JsVal)
    (env : Process) (mongoCount : Exc Z) (documents : list Props) (w : Index) :
  documents <> [] ->
  Forall (fun doc => nullish (prop doc "_id") = false) documents ->
  List.NoDup (List.map idOf documents) ->
  existsb (rejected accepts) documents = false ->
  exists w',
    bulkRoute env (mkCollection (Returned documents) mongoCount) (elastic accepts answer) w
    = (Returned (ok (JObj [("success", JBool true);
                           ("message", JStr "Bulk sync completed successfully");
                           ("documentsProcessed", JNum (Z.of_nat (List.length documents)));
                           ("timestamp", JStr (now env))])), w')
    /\ Forall (fun doc => w' !! idOf doc = Some (sourceOf doc)) documents.
Proof.
  intros Hne Hids Hnd Hacc. exists (written accepts documents w). split.
  - unfold bulkRoute. run. cbn [findAll].
    destruct documents as [|doc documents]; [contradiction|].
    replace (Z.of_nat (List.length (doc :: documents)) =? 0) with false
      by (symmetry; apply Z.eqb_neq; cbn [List.length]; lia).
    rewrite flatMapM_bulkLines by exact Hids.
    cbn [bulk elastic]. unfold ref_bulk. rewrite bulkItems_route, existsb_items, Hacc.
    reflexivity.
  - pose proof (written_accepted accepts documents w Hnd) as Hw.
    rewrite List.Forall_forall in Hw. apply List.Forall_forall. intros doc Hin.
    apply Hw; [exact Hin|].
    destruct (accepts (sourceOf doc)) eqn:E; [reflexivity|].
    assert (existsb (rejected accepts) documents = true) as Hcontra.
    { apply existsb_exists. exists doc. split; [exact Hin|]. unfold rejected. by rewrite E. }
    congruence.
Qed.

Lemma bulkRoute_success_witness :
  exists w',
    bulkRoute Samples.production
      (mkCollection (Returned [Samples.subnetA; Samples.subnetC]) (Returned 2))
      (elastic Samples.ipMapping Samples.noHits) ∅
    = (Returned (ok (JObj [("success", JBool true);
                           ("message", JStr "Bulk sync completed successfully");
                           ("documentsProcessed", JNum 2);
                           ("timestamp", JStr "2026-01-01T00:00:00.000Z")])), w')
    /\ Forall (fun doc => w' !! idOf doc = Some (sourceOf doc))
         [Samples.subnetA; Samples.subnetC].
Proof.
  refine (bulkRoute_success Samples.ipMapping Samples.noHits Samples.production (Returned 2)
            [Samples.subnetA; Samples.subnetC] ∅ _ _ _ eq_refl).
  - discriminate.
  - repeat constructor.
  - constructor; [cbn; intros [H|[]]; discriminate|].
    constructor; [intros []|]. constructor.
Defined.

Lemma written_lookup accepts documents d k :
  written accepts documents d !! k
  = match lastWrite accepts documents k with Some v => Some v | None => d !! k end.
Proof.
  revert d. induction documents as [|doc documents IH]; intros d; [reflexivity|].
  rewrite written_cons, IH. cbn [lastWrite].
  destruct (lastWrite accepts documents k); [reflexivity|].
  destruct (accepts (sourceOf doc)); cbn [andb]; [|reflexivity].
  destruct (String.eqb (idOf doc) k) eqn:E.
  - apply String.eqb_eq in E. subst k. apply lookup_insert_eq.
  - apply String.eqb_neq in E. by apply lookup_insert_ne.
Qed.

(** X13: a reconcile only adds or overwrites.  Identifiers outside the
    batch keep what they had, and no identifier that had a document loses
    it: index documents of records that no longer exist stay in the
    index. *)
Theorem bulkRoute_never_removes (accepts : JsVal -> bool)
    (answer : SearchRequest -> gmap string JsVal -> Exc JsVal)
    (env : Process) (mongoCount : Exc Z) (documents : list Props) (w : Index) (k : string) :
  Forall (fun doc => nullish (prop doc "_id") = false) documents ->
  let w' := snd (bulkRoute env (mkCollection (Returned documents) mongoCount)
                   (elastic accepts answer) w) in
  (~ In k (List.map idOf documents) -> w' !! k = w !! k)
  /\ (is_Some (w !! k) -> is_Some (w' !! k)).
Proof.
  intros Hids w'. subst w'. rewrite bulkRoute_state by exact Hids. split.
  - apply written_other.
  - intros Hsome. rewrite written_lookup.
    destruct (lastWrite accepts documents k); [eauto | exact Hsome].
Qed.

Lemma bulkRoute_never_removes_witness :
  snd (bulkRoute Samples.production (mkCollection (Returned [Samples.subnetA]) (Returned 1))
         (elastic Samples.acceptAll Samples.noHits) {["stale" := JObj Samples.subnetC]})
    !! "stale" = Some (JObj Samples.subnetC).
Proof.
  refine (proj1 (bulkRoute_never_removes Samples.acceptAll Samples.noHits Samples.production
                   (Returned 1) [Samples.subnetA] {["stale" := JObj Samples.subnetC]} "stale"
                   _) _).
  - repeat constructor.
  - cbn. intros [H|[]]. discriminate.
Defined.

(** X14: reconcile is idempotent on the index.  Running the sync route a
    second time over the same records leaves the index exactly as the
    first run left it. *)
Theorem bulkRoute_idempotent (accepts : JsVal -> bool)
    (answer : SearchRequest -> gmap string JsVal -> Exc JsVal)
    (env : Process) (mongoCount : Exc Z) (documents : list Props) (w : Index) :
  Forall (fun doc => nullish (prop doc "_id") = false) documents ->
  let once := snd (bulkRoute env (mkCollection (Returned documents) mongoCount)
                     (elastic accepts answer) w) in
  snd (bulkRoute env (mkCollection (Returned documents) mongoCount)
         (elastic accepts answer) once) = once.
Proof.
  intros Hids once. subst once. rewrite !bulkRoute_state by exact Hids.
  apply map_eq. intros k. rewrite !written_lookup.
  by destruct (lastWrite accepts documents k).
Qed.

Lemma bulkRoute_idempotent_witness :
  snd (bulkRoute Samples.production
         (mkCollection (Returned [Samples.subnetA; Samples.subnetB]) (Returned 2))
         (elastic Samples.ipMapping Samples.noHits)
         (snd (bulkRoute Samples.production
                 (mkCollection (Returned [Samples.subnetA; Samples.subnetB]) (Returned 2))
                 (elastic Samples.ipMapping Samples.noHits) ∅)))
  = snd (bulkRoute Samples.production
           (mkCollection (Returned [Samples.subnetA; Samples.subnetB]) (Returned 2))
           (elastic Samples.ipMapping Samples.noHits) ∅).
Proof.
  refine (bulkRoute_idempotent Samples.ipMapping Samples.noHits Samples.production (Returned 2)
            [Samples.subnetA; Samples.subnetB] ∅ _).
  repeat constructor.
Defined.

(** ** Change propagator: isolation, ignored events, insert and delete *)

(** X15: failure isolation.  For every client and every event, applying
    the event returns normally, whatever the client call throws, and it
    makes at most one call to the engine. *)
Theorem handleChangeEvent_isolated {S : Type} (change : ChangeEvent) (esClient : EsClient S)
    (indexName : string) (s : S) (log : list Call) :
  fst (handleChangeEvent change esClient indexName s) = Returned tt
  /\ exists calls,
       snd (snd (handleChangeEvent change (spy esClient) indexName (s, log)))
       = (log ++ calls)%list
       /\ (List.length calls <= 1)%nat.
Proof.
  split; [apply handleChangeEvent_returns|].
  unfold handleChangeEvent, get. run.
  destruct (String.eqb (operationType change) "insert");
    [|destruct (String.eqb (operationType change) "update");
      [|destruct (String.eqb (operationType change) "delete")]];
    try (destruct (nullish (documentKey change));
         [exists []; split; [by rewrite app_nil_r | cbn; lia]|]).
  - cbn [index spy]. rewrite logged_run.
    destruct (index esClient _ _ _ s) as [[?|?] ?]; eexists [_]; split; cbn; done.
  - cbn [update spy]. rewrite logged_run.
    destruct (update esClient _ _ _ s) as [[?|?] ?]; eexists [_]; split; cbn; done.
  - cbn [delete spy]. rewrite logged_run.
    destruct (delete esClient _ _ s) as [[?|?] ?]; eexists [_]; split; cbn; done.
  - exists []. split; [by rewrite app_nil_r | cbn; lia].
Qed.

(** X16: events of any other kind are ignored.  An event whose operation
    type is none of [insert], [update], [delete] (a [replace], say) makes
    no call to the engine at all. *)
Theorem handleChangeEvent_ignores_other {S : Type} (change : ChangeEvent)
    (esClient : EsClient S) (indexName : string) (s : S) (log : list Call) :
  operationType change <> "insert" ->
  operationType change <> "update" ->
  operationType change <> "delete" ->
  handleChangeEvent change (spy esClient) indexName (s, log) = (Returned tt, (s, log)).
Proof.
  intros Hi Hu Hd. apply String.eqb_neq in Hi, Hu, Hd.
  unfold handleChangeEvent. rewrite Hi, Hu, Hd. reflexivity.
Qed.

Lemma handleChangeEvent_ignores_other_witness :
  handleChangeEvent (mkChange "replace" (JObj [("_id", JObjectId "66f0a1")])
                       (JObj Samples.subnetA))
    (spy (elastic Samples.acceptAll Samples.noHits)) "subnet_search" (∅, [])
  = (Returned tt, (∅, [])).
Proof.
  exact (handleChangeEvent_ignores_other
           (mkChange "replace" (JObj [("_id", JObjectId "66f0a1")]) (JObj Samples.subnetA))
           (elastic Samples.acceptAll Samples.noHits) "subnet_search" ∅ []
           ltac:(discriminate) ltac:(discriminate) ltac:(discriminate)).
Defined.

(** The reference engine's [index] call: the store after it. *)
Lemma ref_index_store (accepts : JsVal -> bool)
    (answer : SearchRequest -> gmap string JsVal -> Exc JsVal)
    (indexName : string) (id body : JsVal) (k : string) (w : Index) :
  wireId id = Some k ->
  snd (index (elastic accepts answer) indexName id body w)
  = (if accepts body then <[k := body]> w else w).
Proof.
  intros Hwire. cbn [index elastic]. unfold ref_index. rewrite Hwire.
  by destruct (accepts body).
Qed.

(** X17: an insert event writes the event's document under the record's
    identifier, replacing whatever was there and touching nothing else;
    when the engine turns the document down the index stays as it was.
    Either way the handler returns normally. *)
Theorem insert_overwrites (accepts : JsVal -> bool)
    (answer : SearchRequest -> gmap string JsVal -> Exc JsVal)
    (indexName : string) (change : ChangeEvent) (k : string) (w : Index) :
  operationType change = "insert" ->
  wireId (optMember (documentKey change) "_id") = Some k ->
  handleChangeEvent change (elastic accepts answer) indexName w
  = (Returned tt,
     if accepts (fullDocument change) then <[k := fullDocument change]> w else w).
Proof.
  intros Hop Hid. destruct (documentKey_id (W := Index) _ _ Hid) as [Hget Hwire].
  pose proof (ref_index_store accepts answer indexName _ (fullDocument change) k w Hwire) as Hw.
  unfold handleChangeEvent. rewrite Hop, Hget. cbn [String.eqb Ascii.eqb Bool.eqb]. run.
  destruct (index (elastic accepts answer) indexName _ _ w) as [[r|e] w1];
    cbn [snd] in Hw; by subst w1.
Qed.

Lemma insert_overwrites_witness :
  handleChangeEvent
    (mkChange "insert" (JObj [("_id", JObjectId "66f0a3")]) (JObj Samples.subnetC))
    (elastic Samples.acceptAll Samples.noHits) "subnet_search"
    {["66f0a3" := JObj Samples.subnetA]}
  = (Returned tt, <["66f0a3" := JObj Samples.subnetC]> {["66f0a3" := JObj Samples.subnetA]}).
Proof.
  exact (insert_overwrites Samples.acceptAll Samples.noHits "subnet_search"
           (mkChange "insert" (JObj [("_id", JObjectId "66f0a3")]) (JObj Samples.subnetC))
           "66f0a3" {["66f0a3" := JObj Samples.subnetA]} eq_refl eq_refl).
Defined.

(** X18: a delete event removes the document under the record's
    identifier and nothing else, so the insert of a record followed by the
    delete of the same identifier leaves the index as it is without that
    identifier. *)
Theorem insert_then_delete (accepts : JsVal -> bool)
    (answer : SearchRequest -> gmap string JsVal -> Exc JsVal)
    (indexName : string) (key full : JsVal) (k : string) (w : Index) :
  wireId (optMember key "_id") = Some k ->
  handleChangeEvent (mkChange "delete" key JUndefined) (elastic accepts answer) indexName
    (snd (handleChangeEvent (mkChange "insert" key full) (elastic accepts answer) indexName w))
  = (Returned tt, base.delete k w).
Proof.
  intros Hid. destruct (documentKey_id (W := Index) _ _ Hid) as [Hget Hwire].
  pose proof (ref_index_store accepts answer indexName _ full k w Hwire) as Hw.
  unfold handleChangeEvent at 2.
  cbn [operationType documentKey fullDocument String.eqb Ascii.eqb Bool.eqb].
  rewrite Hget. run.
  destruct (index (elastic accepts answer) indexName _ _ w) as [[r|e] w1];
    cbn [snd] in Hw |- *; subst w1;
    unfold handleChangeEvent;
    cbn [operationType documentKey String.eqb Ascii.eqb Bool.eqb]; rewrite Hget;
    run; cbn [delete elastic]; unfold ref_delete; rewrite Hwire;
    (destruct (accepts full);
     [rewrite lookup_insert_eq; by rewrite delete_insert_eq
     |destruct (w !! k) eqn:E; [reflexivity | by rewrite delete_id]]).
Qed.

Lemma insert_then_delete_witness :
  handleChangeEvent (mkChange "delete" (JObj [("_id", JObjectId "66f0a3")]) JUndefined)
    (elastic Samples.acceptAll Samples.noHits) "subnet_search"
    (snd (handleChangeEvent
            (mkChange "insert" (JObj [("_id", JObjectId "66f0a3")]) (JObj Samples.subnetC))
            (elastic Samples.acceptAll Samples.noHits) "subnet_search"
            {["66f0a1" := JObj Samples.subnetA]}))
  = (Returned tt, base.delete "66f0a3" {["66f0a1" := JObj Samples.subnetA]}).
Proof.
  exact (insert_then_delete Samples.acceptAll Samples.noHits "subnet_search"
           (JObj [("_id", JObjectId "66f0a3")]) (JObj Samples.subnetC) "66f0a3"
           {["66f0a1" := JObj Samples.subnetA]} eq_refl).
Defined.

(** ** Autocomplete suggestions *)

Import Suggest.

Lemma includes_In (l : list string) (s : string) : includes l s = true <-> In s l.
Proof.
  unfold includes. rewrite existsb_exists. split.
  - intros [x [Hin E]]. apply String.eqb_eq in E. by subst.
  - intros Hin. exists s. split; [exact Hin | apply String.eqb_refl].
Qed.

Lemma add_tidy query set c :
  tidy query set -> (forall text, c = Some text -> mentions query text = true) ->
  tidy query (add set c).
Proof.
  intros [Hnd Hall] Hc. destruct c as [text|]; [|by split]. cbn.
  destruct (includes set text) eqn:E; [by split|]. split.
  - apply NoDup_ListNoDup, NoDup_app. repeat split.
    + by apply NoDup_ListNoDup.
    + intros x Hx Hx'. apply list_elem_of_In in Hx. apply list_elem_of_singleton in Hx'.
      subst x. apply includes_In in Hx. congruence.
    + apply NoDup_singleton.
  - apply Forall_app. split; [exact Hall|]. constructor; [by apply Hc | constructor].
Qed.

Lemma guard_sound {S} expr v query (w w' : S) text :
  guard expr v query w = (Returned (Some text), w') -> mentions query text = true.
Proof.
  unfold guard. run. destruct (truthy v); [|discriminate].
  destruct v; try discriminate. destruct (mentions query s) eqn:E; [|discriminate].
  intros H. by injection H as <- _.
Qed.

Lemma candidate_sound {S} expr source k query (w w' : S) text :
  candidate expr source k query w = (Returned (Some text), w') -> mentions query text = true.
Proof.
  unfold candidate. destruct (nullish source); [discriminate|].
  destruct source; try apply guard_sound.
  destruct (hasOwn props k); [apply guard_sound|].
  destruct (includes inherited k); discriminate.
Qed.

Lemma visit_tidy {S} query field set hit (w w' : S) set' :
  tidy query set -> visit query field set hit w = (Returned set', w') -> tidy query set'.
Proof.
  intros Hset. unfold visit, get. run. destruct (nullish hit); [discriminate|].
  destruct (Req.given field).
  - destruct (candidate _ _ _ query w) as [[c|e] w1] eqn:E; [|discriminate].
    intros H. injection H as <- _. apply add_tidy; [exact Hset|].
    intros text ->. eapply candidate_sound, E.
  - destruct (candidate _ _ "CLUSTERID" query w) as [[c1|e] w1] eqn:E1; [|discriminate].
    destruct (candidate _ _ "SITE" query w1) as [[c2|e] w2] eqn:E2; [|discriminate].
    destruct (candidate _ _ "USERNAME" query w2) as [[c3|e] w3] eqn:E3; [|discriminate].
    destruct (candidate _ _ "VALUE" query w3) as [[c4|e] w4] eqn:E4; [|discriminate].
    intros H. injection H as <- _.
    repeat apply add_tidy; try exact Hset; intros text ->; eapply candidate_sound; eauto.
Qed.

Lemma forEach_tidy {S} query field l set (w w' : S) set' :
  tidy query set -> forEach (visit query field) set l w = (Returned set', w') ->
  tidy query set'.
Proof.
  revert set w. induction l as [|hit l IH]; intros set w Hset; cbn [forEach]; run.
  - intros H. by injection H as <- _.
  - destruct (visit query field set hit w) as [[set1|e] w1] eqn:E; [|discriminate].
    apply IH. eapply visit_tidy; eauto.
Qed.

(** Cutting a tidy set to ten leaves it tidy. *)
Lemma take_tidy query (set : list string) :
  tidy query set ->
  (List.length (take 10 set) <= 10)%nat
  /\ List.NoDup (take 10 set)
  /\ Forall (fun text => mentions query text = true) (take 10 set).
Proof.
  intros [Hnd Hall]. split; [|split].
  - rewrite length_take. lia.
  - apply NoDup_ListNoDup. apply (sublist_NoDup (take 10 set) set); [|apply sublist_take].
    by apply NoDup_ListNoDup.
  - by apply Forall_take.
Qed.

(** X19: what the suggestion formatter returns.  Whenever it returns, the
    result is a list of at most ten suggestions whose texts are pairwise
    different and each contain the query, letter case aside: three hits
    with the same cluster identifier give that identifier once. *)
Theorem formatAutocompleteSuggestions_tidy {S : Type} (hits : JsVal) (query : string)
    (field : option string) (w w' : S) (out : JsVal) :
  formatAutocompleteSuggestions hits query field w = (Returned out, w') ->
  exists texts,
    out = JArr (List.map suggestion texts)
    /\ (List.length texts <= 10)%nat
    /\ List.NoDup texts
    /\ Forall (fun text => mentions query text = true) texts.
Proof.
  unfold formatAutocompleteSuggestions. destruct hits; try discriminate. run.
  destruct (forEach (visit query field) [] elems w) as [[set|e] w1] eqn:E; [|discriminate].
  intros H. injection H as <- _.
  exists (take 10 set). split; [reflexivity|]. apply take_tidy.
  apply (forEach_tidy query field elems [] w w1 set); [split; constructor | exact E].
Qed.

Lemma formatAutocompleteSuggestions_tidy_witness :
  exists texts,
    JArr [suggestion "cluster-1"; suggestion "Cluster-1"; suggestion "spare CLUster"]
    = JArr (List.map suggestion texts)
    /\ (List.length texts <= 10)%nat
    /\ List.NoDup texts
    /\ Forall (fun text => mentions "clu" text = true) texts.
Proof.
  exact (formatAutocompleteSuggestions_tidy sharedCluster "clu" None tt tt
           (JArr [suggestion "cluster-1"; suggestion "Cluster-1"; suggestion "spare CLUster"])
           eq_refl).
Defined.

(** X20: the autocomplete handler always answers.  The reply is a 400 when
    [q] is missing or empty, with no call made; otherwise a 200 that
    echoes [q] and carries at most ten distinct suggestions, each
    containing [q]; or a 500 [Autocomplete failed].  The requested [size]
    does not raise the cap of ten. *)
Theorem autocomplete_replies {S : Type} (env : Process) (query : Req.Params)
    (suggestSearch : string -> Query -> JsVal -> M S JsVal) (s : S) :
  exists reply s',
    autocomplete env query suggestSearch s = (Returned reply, s')
    /\ (Req.given (Req.q query) = false -> status reply = 400 /\ s' = s)
    /\ (status reply = 200 \/ status reply = 400 \/ status reply = 500)
    /\ (status reply = 200 ->
        member (json reply) "query" = JStr (default "" (Req.q query))
        /\ exists texts,
             member (json reply) "suggestions" = JArr (List.map suggestion texts)
             /\ (List.length texts <= 10)%nat
             /\ List.NoDup texts
             /\ Forall (fun text => mentions (default "" (Req.q query)) text = true) texts).
Proof.
  assert (Hother : forall (reply : Response) (s' : S) (code : Z),
             status reply = code -> code = 400 \/ code = 500 ->
             (Req.given (Req.q query) = false -> code = 400 /\ s' = s) ->
             (Req.given (Req.q query) = false -> status reply = 400 /\ s' = s)
             /\ (status reply = 200 \/ status reply = 400 \/ status reply = 500)
             /\ (status reply = 200 ->
                 member (json reply) "query" = JStr (default "" (Req.q query))
                 /\ exists texts,
                      member (json reply) "suggestions" = JArr (List.map suggestion texts)
                      /\ (List.length texts <= 10)%nat
                      /\ List.NoDup texts
                      /\ Forall (fun text => mentions (default "" (Req.q query)) text = true)
                           texts)).
  { intros reply s' code Hst Hcode Hq. rewrite Hst. split; [exact Hq|]. split; [|lia].
    destruct Hcode; subst code; [by right; left | by right; right]. }
  unfold autocomplete. run.
  destruct (Req.given (Req.q query)) eqn:Eq; cbn [negb orb].
  2:{ eexists _, _. split; [reflexivity|].
      apply (Hother _ _ 400); [reflexivity | by left | by intros _]. }
  destruct (Z.of_nat _ <? 1).
  { eexists _, _. split; [reflexivity|].
    apply (Hother _ _ 400); [reflexivity | by left | discriminate]. }
  destruct (suggestSearch _ _ _ s) as [[response|e] s1].
  2:{ eexists _, _. split; [reflexivity|].
      apply (Hother _ _ 500); [reflexivity | by right | discriminate]. }
  destruct (suggestHits response s1) as [[hits|e] s2].
  2:{ eexists _, _. split; [reflexivity|].
      apply (Hother _ _ 500); [reflexivity | by right | discriminate]. }
  destruct (formatAutocompleteSuggestions (member hits "hits") _ (Req.field query) s2)
    as [[out|e] s3] eqn:E.
  2:{ eexists _, _. split; [reflexivity|].
      apply (Hother _ _ 500); [reflexivity | by right | discriminate]. }
  eexists _, _. split; [reflexivity|]. split; [discriminate|]. split; [by left|].
  intros _. split; [reflexivity|]. cbn [json ok member prop String.eqb Ascii.eqb Bool.eqb].
  revert E. unfold formatAutocompleteSuggestions.
  destruct (member hits "hits") as [| | | | | | |elems|]; try discriminate. run.
  destruct (forEach (visit (default "" (Req.q query)) (Req.field query)) [] elems s2)
    as [[set|e] w1] eqn:E; [|discriminate].
  intros H. injection H as <- _.
  exists (take 10 set). split; [reflexivity|]. apply take_tidy.
  apply (forEach_tidy _ (Req.field query) elems [] s2 w1 set); [split; constructor | exact E].
Qed.

(** ** Reading a document back *)

(** X21: how [getById] answers.  Without an identifier it replies 400 and
    makes no call; a failure of the read that carries status 404 becomes a
    404 [Document not found]; any other failure becomes a 500 with the
    error's own message. *)
Theorem getById_failures {S : Type} (env : Process) (id : option string)
    (esGet : string -> string -> M S JsVal) (s : S) :
  (Req.given id = false ->
   getById env id esGet s
   = (Returned (mkResponse 400 (JObj [("error", JStr "Document ID is required")])), s))
  /\ (forall e s', Req.given id = true ->
        esGet (indexNameOf env) (default "" id) s = (Thrown e, s') ->
        getById env id esGet s
        = (Returned (if hasStatus e 404
                     then mkResponse 404 (JObj [("error", JStr "Document not found")])
                     else mkResponse 500
                            (JObj [("error", JStr "Failed to retrieve document");
                                   ("message", JStr (message e))])), s')).
Proof.
  split.
  - intros Hid. unfold getById. run. by rewrite Hid.
  - intros e s' Hid Hget. unfold getById. run. rewrite Hid. cbn [negb]. rewrite Hget.
    by destruct (hasStatus e 404).
Qed.

Lemma getById_failures_witness :
  getById Samples.production (Some "66f0a9") (ref_get) {["66f0a1" := JObj Samples.subnetA]}
  = (Returned (mkResponse 404 (JObj [("error", JStr "Document not found")])),
     {["66f0a1" := JObj Samples.subnetA]}).
Proof.
  exact (proj2 (getById_failures Samples.production (Some "66f0a9") ref_get
                  {["66f0a1" := JObj Samples.subnetA]})
           (notFound "not_found") {["66f0a1" := JObj Samples.subnetA]} eq_refl eq_refl).
Defined.

(** X22: what a reconcile indexed can be read back.  After a reconcile
    through the sync route, whether or not other documents of the batch
    were rejected, [getById] on the identifier of an accepted record
    replies 200 with that identifier and the record's fields without
    [_id]. *)
Theorem reconcile_then_getById (accepts : JsVal -> bool)
    (answer : SearchRequest -> gmap string JsVal -> Exc JsVal)
    (env : Process) (mongoCount : Exc Z) (documents : list Props) (w : Index) (doc : Props) :
  Forall (fun doc => nullish (prop doc "_id") = false) documents ->
  List.NoDup (List.map idOf documents) ->
  In doc documents ->
  accepts (sourceOf doc) = true ->
  idOf doc <> "" ->
  let w' := snd (bulkRoute env (mkCollection (Returned documents) mongoCount)
                   (elastic accepts answer) w) in
  getById env (Some (idOf doc)) ref_get w'
  = (Returned (ok (JObj [("id", JStr (idOf doc)); ("source", sourceOf doc)])), w').
Proof.
  intros Hids Hnd Hin Hacc Hne w'. subst w'. rewrite bulkRoute_state by exact Hids.
  pose proof (written_accepted accepts documents w Hnd) as Hw.
  rewrite List.Forall_forall in Hw. specialize (Hw doc Hin Hacc).
  apply String.eqb_neq in Hne.
  unfold getById. run.
  change (Req.given (Some (idOf doc))) with (negb (String.eqb (idOf doc) "")).
  rewrite Hne. cbn [negb default from_option id]. unfold ref_get. rewrite Hw.
  reflexivity.
Qed.

Lemma reconcile_then_getById_witness :
  getById Samples.production (Some "66f0a3") ref_get
    (snd (bulkRoute Samples.production
            (mkCollection (Returned [Samples.subnetA; Samples.subnetB; Samples.subnetC])
               (Returned 3))
            (elastic Samples.ipMapping Samples.noHits) ∅))
  = (Returned (ok (JObj [("id", JStr "66f0a3"); ("source", sourceOf Samples.subnetC)])),
     snd (bulkRoute Samples.production
            (mkCollection (Returned [Samples.subnetA; Samples.subnetB; Samples.subnetC])
               (Returned 3))
            (elastic Samples.ipMapping Samples.noHits) ∅)).
Proof.
  refine (reconcile_then_getById Samples.ipMapping Samples.noHits Samples.production
            (Returned 3) [Samples.subnetA; Samples.subnetB; Samples.subnetC] ∅ Samples.subnetC
            _ _ _ eq_refl _).
  - repeat constructor.
  - constructor; [cbn; intros [H|[H|[]]]; discriminate|].
    constructor; [cbn; intros [H|[]]; discriminate|].
    constructor; [intros []|]. constructor.
  - right. right. left. reflexivity.
  - discriminate.
Defined.

(** ** Connection handles *)

Import MongoService.

(** X23: the record-store handles follow the connection.  After a
    successful connect the database, client and collection getters
    return, with the names the environment gives or the defaults; after a
    successful close they throw again, as they do before any connect, and
    a further close does nothing and does not fail. *)
Theorem mongo_connect_close (MONGODB_URI collectionName : option string) (env : Process)
    (h : Handles) (close : Exc unit) :
  let connected := snd (connectMongoDB MONGODB_URI env (Returned tt) h) in
  let closed := snd (closeMongoDB (Returned tt) connected) in
  fst (getDB connected) = Returned (envOr (MONGODB_DATABASE env) "lucene")
  /\ fst (getClient connected) = Returned (envOr MONGODB_URI "mongodb://localhost:27017")
  /\ fst (getCollection collectionName env connected)
     = Returned (envOr (MONGODB_DATABASE env) "lucene",
                 envOr collectionName (envOr (MONGODB_COLLECTION env) "subnet_details"))
  /\ closed = disconnected
  /\ fst (getDB closed) = Thrown (notConnected "MongoDB")
  /\ fst (getClient closed) = Thrown (notConnected "MongoDB client")
  /\ fst (getCollection collectionName env closed) = Thrown (notConnected "MongoDB")
  /\ closeMongoDB close closed = (Returned tt, closed).
Proof. repeat split. Qed.

(** X24: a connect that fails leaves the module half set.  From the
    disconnected state, after [client.connect()] has thrown, the error is
    thrown on, the database getter still throws, but the client getter
    returns the client that never connected; a later close attempts to
    close that client. *)
Theorem mongo_failed_connect (MONGODB_URI : option string) (env : Process) (e : JsError) :
  let after := snd (connectMongoDB MONGODB_URI env (Thrown e) disconnected) in
  fst (connectMongoDB MONGODB_URI env (Thrown e) disconnected) = Thrown e
  /\ fst (getDB after) = Thrown (notConnected "MongoDB")
  /\ fst (getClient after) = Returned (envOr MONGODB_URI "mongodb://localhost:27017")
  /\ (forall e', closeMongoDB (Thrown e') after = (Thrown e', after))
  /\ closeMongoDB (Returned tt) after = (Returned tt, disconnected).
Proof. repeat split. Qed.

Import ElasticsearchService.

(** X25: credentials are sent whole or not at all.  The client
    configuration carries [auth] exactly when both the user name and the
    password are set and non-empty, and then it carries the two as
    given. *)
Theorem configOf_auth (vars : Vars) :
  (auth (configOf vars) <> None
   <-> Req.given (ELASTICSEARCH_USERNAME vars) = true
       /\ Req.given (ELASTICSEARCH_PASSWORD vars) = true)
  /\ (forall user password, auth (configOf vars) = Some (user, password) ->
        ELASTICSEARCH_USERNAME vars = Some user /\ ELASTICSEARCH_PASSWORD vars = Some password)
  /\ node (configOf vars) = envOr (ELASTICSEARCH_NODE vars) "http://localhost:9200".
Proof.
  unfold configOf.
  destruct (ELASTICSEARCH_USERNAME vars) as [u|], (ELASTICSEARCH_PASSWORD vars) as [p|];
    cbn; try (destruct (String.eqb u "")); try (destruct (String.eqb p ""));
    cbn; repeat split; try discriminate; try congruence; intros; try tauto;
    repeat match goal with H : _ /\ _ |- _ => destruct H end; try discriminate;
    try congruence.
Qed.





(** X27: a failed health check leaves a client behind.  When
    [cluster.health()] throws, [connectElasticsearch] throws the same
    error and creates no index, but the module's client stays set, so
    [getClient] returns it afterwards instead of reporting that nothing is
    connected; with no connect at all [getClient] throws. *)
Theorem elastic_failed_connect {C : Type} (vars : Vars) (env : Process) (e : JsError)
    (indices : Indices C) (c : C) :
  let after := snd (connectElasticsearch vars env (Thrown e) indices (mkWorld None c)) in
  fst (connectElasticsearch vars env (Thrown e) indices (mkWorld None c)) = Thrown e
  /\ cluster after = c
  /\ fst (ElasticsearchService.getClient after) = Returned (configOf vars)
  /\ fst (ElasticsearchService.getClient (mkWorld None c))
     = Thrown (mkError "Elasticsearch not connected. Call connectElasticsearch() first." None).
Proof. repeat split. Qed.

(** ** The formatter on well-formed hits, the autocomplete middleware, test data *)

Import AutocompleteRoute TestData.

Lemma guard_returns {S} expr v query (w : S) :
  textOrEmpty v = true -> exists c, guard expr v query w = (Returned c, w).
Proof.
  unfold textOrEmpty, guard. destruct (truthy v); cbn [negb orb]; [|by eexists].
  destruct v; try discriminate. intros _. by eexists.
Qed.

Lemma candidate_returns {S} expr ps k query (w : S) :
  (if hasOwn ps k then textOrEmpty (prop ps k) else negb (includes inherited k)) = true ->
  exists c, candidate expr (JObj ps) k query w = (Returned c, w).
Proof.
  unfold candidate. cbn [nullish]. destruct (hasOwn ps k).
  - apply guard_returns.
  - destruct (includes inherited k); [discriminate | by eexists].
Qed.

Lemma visit_returns {S} query field set hit (w : S) :
  plainHit (lookedUp field) hit = true ->
  exists set', visit query field set hit w = (Returned set', w).
Proof.
  unfold plainHit, visit, get, lookedUp. run.
  destruct (nullish hit) eqn:En; [by destruct hit|].
  destruct (member hit "_source") as [| | | | | | | |ps]; try discriminate.
  destruct (Req.given field); cbn [forallb]; intros H.
  - apply andb_true_iff in H as [H1 _].
    destruct (candidate_returns "source[field]" ps _ query w H1) as [c ->]. by eexists.
  - apply andb_true_iff in H as [H1 H]. apply andb_true_iff in H as [H2 H].
    apply andb_true_iff in H as [H3 H]. apply andb_true_iff in H as [H4 _].
    destruct (candidate_returns "source[fieldName]" ps _ query w H1) as [c1 ->].
    destruct (candidate_returns "source[fieldName]" ps _ query w H2) as [c2 ->].
    destruct (candidate_returns "source[fieldName]" ps _ query w H3) as [c3 ->].
    destruct (candidate_returns "source.VALUE" ps _ query w H4) as [c4 ->]. by eexists.
Qed.

(** X28: the suggestion formatter returns on well-formed hits.  For an
    array of hits each of whose sources is an object holding text or
    nothing under the looked-up fields, the formatter returns, and leaves
    the store alone. *)
Theorem formatAutocompleteSuggestions_returns {S : Type} (l : list JsVal) (query : string)
    (field : option string) (w : S) :
  forallb (plainHit (lookedUp field)) l = true ->
  exists out, formatAutocompleteSuggestions (JArr l) query field w = (Returned out, w).
Proof.
  intros Hl. unfold formatAutocompleteSuggestions. run.
  assert (H : forall set, exists set',
             forEach (visit query field) set l w = (Returned set', w)).
  { induction l as [|hit l IH]; intros set; [by eexists|].
    cbn [forallb] in Hl. apply andb_true_iff in Hl as [Hhit Hl].
    cbn [forEach]. run.
    destruct (visit_returns query field set hit w Hhit) as [set1 ->]. by apply IH. }
  destruct (H []) as [set' ->]. by eexists.
Qed.

Lemma formatAutocompleteSuggestions_returns_witness :
  exists out, formatAutocompleteSuggestions sharedCluster "clu" None tt = (Returned out, tt).
Proof.
  exact (formatAutocompleteSuggestions_returns
           [JObj [("_id", JStr "1");
                  ("_source", JObj [("CLUSTERID", JStr "cluster-1"); ("SITE", JStr "east")])];
            JObj [("_id", JStr "2");
                  ("_source", JObj [("CLUSTERID", JStr "cluster-1"); ("SITE", JStr "west")])];
            JObj [("_id", JStr "3");
                  ("_source", JObj [("CLUSTERID", JStr "Cluster-1");
                                    ("VALUE", JStr "spare CLUster")])]]
           "clu" None tt eq_refl).
Defined.

(** X29: what the autocomplete middleware lets through.  A request passes
    only if its [q] has a character that is not white space, and then the
    size the handler sends is an integer from 1 to 20, 5 when [size] is
    absent, or [NaN]; a blank [q] is answered 400 on the route without any
    call. *)
Theorem validateAutocomplete_bounds {S : Type} (env : Process) (query : Req.Params)
    (suggestSearch : string -> Query -> JsVal -> M S JsVal) (s : S) :
  (validateAutocomplete query = None ->
   trim (default "" (Req.q query)) <> ""
   /\ (Req.parseIntOr (Req.size query) 5 = JNaN
       \/ exists n, Req.parseIntOr (Req.size query) 5 = JNum n /\ 1 <= n <= 20)
   /\ autocompleteRoute env query suggestSearch s = autocomplete env query suggestSearch s)
  /\ (trim (default "" (Req.q query)) = "" ->
      exists reply, autocompleteRoute env query suggestSearch s = (Returned reply, s)
                    /\ status reply = 400).
Proof.
  split.
  - intros Ev. split; [|split].
    + unfold validateAutocomplete, Validation.reject in Ev.
      intros Hblank. rewrite Hblank in Ev. cbn in Ev. rewrite orb_true_r in Ev. discriminate.
    + unfold validateAutocomplete, Validation.reject in Ev.
      destruct (negb (Req.given (Req.q query)) || _); [discriminate|].
      destruct (Req.given (Req.size query) && _) eqn:Esize; [discriminate|].
      unfold Req.parseIntOr. destruct (Req.size query) as [sz|];
        [|right; exists 5; split; [done|lia]].
      cbn [default from_option id] in Esize. unfold Req.given in Esize.
      destruct (String.eqb sz "") eqn:Eempty.
      * apply String.eqb_eq in Eempty. subst sz. by left.
      * cbn [negb andb] in Esize. apply orb_false_iff in Esize as [Esize Hgt].
        apply orb_false_iff in Esize as [_ Hlt].
        destruct (parseInt_number sz) as [-> | [n Hn]]; [by left|].
        rewrite Hn in *. right. exists n. split; [done|]. cbn in Hlt, Hgt. lia.
    + unfold autocompleteRoute. by rewrite Ev.
  - intros Hblank. unfold autocompleteRoute, validateAutocomplete, Validation.reject.
    rewrite Hblank. cbn [String.length Z.of_nat Z.eqb]. rewrite orb_true_r.
    eexists. split; reflexivity.
Qed.

Lemma validateAutocomplete_bounds_witness :
  trim "clu" <> ""
  /\ (JNum 20 = JNaN \/ exists n, JNum 20 = JNum n /\ 1 <= n <= 20)
  /\ autocompleteRoute Samples.production
       (Samples.withSize "20" (Samples.withQ "clu" Samples.noParams))
       (fun _ _ _ => ret (JObj [("hits", JObj [("hits", sharedCluster)])])) tt
     = autocomplete Samples.production
         (Samples.withSize "20" (Samples.withQ "clu" Samples.noParams))
         (fun _ _ _ => ret (JObj [("hits", JObj [("hits", sharedCluster)])])) tt.
Proof.
  exact (proj1 (validateAutocomplete_bounds Samples.production
                  (Samples.withSize "20" (Samples.withQ "clu" Samples.noParams))
                  (fun _ _ _ => ret (JObj [("hits", JObj [("hits", sharedCluster)])])) tt)
           eq_refl).
Defined.

Lemma clusterId_inj (i j : Z) :
  JStr ("cluster-" +:+ pretty (100 + i)) = JStr ("cluster-" +:+ pretty (100 + j)) -> i = j.
Proof.
  intros H. cbn [String.append] in H. injection H as H.
  change ("" +:+ pretty (100 + i) = "" +:+ pretty (100 + j))
    with (pretty (100 + i) = pretty (100 + j)) in H.
  apply (inj (pretty : Z -> string)) in H. lia.
Qed.

(** X30: the generated test data.  [generateBulkData(count)] yields
    [count] records (none for a count of zero or less), none of which has
    an [_id], with pairwise different cluster identifiers; the transform
    gives each of them a suggest input of exactly its three text fields. *)
Theorem generateBulkData_records (date : JsVal) (count : Z) :
  List.length (generateBulkData date count) = Z.to_nat count
  /\ Forall (fun r => prop r "_id" = JUndefined
                      /\ suggestInput r
                         = [prop r "CLUSTERID"; prop r "SITE"; prop r "DESCRIPTION"])
       (generateBulkData date count)
  /\ List.NoDup (List.map (fun r => prop r "CLUSTERID") (generateBulkData date count)).
Proof.
  unfold generateBulkData. split; [|split].
  - rewrite length_map. apply length_seqZ.
  - apply List.Forall_forall. intros r Hr. apply List.in_map_iff in Hr as [i [<- _]].
    split; reflexivity.
  - rewrite List.map_map. cbn [record prop String.eqb Ascii.eqb Bool.eqb].
    pose proof (NoDup_seqZ 0 count) as Hnd. apply NoDup_ListNoDup in Hnd.
    induction Hnd as [|i l Hnot Hnd IH]; cbn [List.map]; constructor; [|exact IH].
    intros Hin. apply List.in_map_iff in Hin as [j [Heq Hj]].
    apply clusterId_inj in Heq. subst j. contradiction.
Qed.
